(** * Xilinx AXI-timer PWM driver (drivers/pwm/pwm-xlnx.c)

    A shallow embedding of [xlnx_pwm_config], [xlnx_pwm_enable] and
    [xlnx_pwm_disable].  C integers are mathematical integers with every
    conversion written out, the register window is a finite map from byte
    offsets to 32-bit values, and the driver's accesses to the register
    window and to the clock are recorded in a trace so that their number
    and order can be stated. *)

From Stdlib Require Import ZArith Lia List Bool.
From stdpp Require Import base option list gmap.

Local Open Scope Z_scope.

(** ** C integer types *)

Module Ctypes.

(** Width of [unsigned long]: 32 bits on Microblaze and 32-bit ARM, 64 bits
    on arm64.  The driver is built for both. *)
Inductive data_model := ILP32 | LP64.

Definition BITS_PER_LONG (dm : data_model) : Z :=
  match dm with ILP32 => 32 | LP64 => 64 end.

(** Conversion of a C integer value to an unsigned type of [w] bits. *)
Definition to_unsigned (w x : Z) : Z := x mod 2 ^ w.

Definition u32 (x : Z) : Z := to_unsigned 32 x.
Definition ull (x : Z) : Z := to_unsigned 64 x.
Definition ulong (dm : data_model) (x : Z) : Z := to_unsigned (BITS_PER_LONG dm) x.

Definition INT_MAX : Z := 2 ^ 31 - 1.
Definition ULLONG_MAX : Z := 2 ^ 64 - 1.
Definition ULONG_MAX (dm : data_model) : Z := 2 ^ BITS_PER_LONG dm - 1.

(** Modelled from the spec: the [do_div] macro of <asm/div64.h>, which is not
    part of the driver file.  It divides a 64-bit unsigned value by a 32-bit
    one with truncation ("round_down"), leaves the quotient in its first
    argument and evaluates to the remainder.  The pair is
    (new value of the first argument, remainder). *)
Definition do_div (n base : Z) : Z * Z := (n / base, n mod base).

End Ctypes.
Export Ctypes.

(** ** The platform: register window and clock *)

Module Platform.

(** What the driver does to the outside world, in program order. *)
Inductive event :=
| EvClkEnable (result : Z)
| EvClkDisable
| EvWrite (data offset : Z)
| EvRead (offset value : Z).

(** Modelled from the spec: the RegisterBank and ClockSource collaborators
    ([writel], [readl], [clk_get_rate], [clk_prepare_enable] and
    [clk_disable_unprepare] are kernel services, not part of the driver
    file).  The register bank is a store of opaque 32-bit values: a read
    returns what was last written.  The clock has a rate and a count of
    outstanding enable requests; a successful enable request adds one, a
    failed one (non-zero result) adds nothing, a release subtracts one. *)
Record device := Device {
  regs : gmap Z Z;
  clk_rate : Z;
  clk_enable_count : Z;
  clk_enable_result : Z;
  trace : list event
}.

Definition io (A : Type) : Type := device -> A * device.

Global Instance io_ret : MRet io := fun A a s => (a, s).
Global Instance io_bind : MBind io :=
  fun A B k m s => let '(a, s') := m s in k a s'.

Definition log (e : event) (s : device) : device :=
  Device (regs s) (clk_rate s) (clk_enable_count s) (clk_enable_result s)
         (trace s ++ [e]).

(** Modelled from the spec: [writel], a 32-bit store to the register at
    [offset]. *)
Definition writel (data offset : Z) : io unit := fun s =>
  let s' := Device (<[offset := u32 data]> (regs s)) (clk_rate s)
                   (clk_enable_count s) (clk_enable_result s) (trace s) in
  (tt, log (EvWrite (u32 data) offset) s').

(** Modelled from the spec: [readl], a 32-bit load from the register at
    [offset]; a register never written reads as zero. *)
Definition readl (offset : Z) : io Z := fun s =>
  let v := u32 (default 0 (regs s !! offset)) in
  (v, log (EvRead offset v) s).

(** Modelled from the spec: [clk_get_rate], the current rate in Hz as an
    [unsigned long]. *)
Definition clk_get_rate (dm : data_model) : io Z := fun s =>
  (ulong dm (clk_rate s), s).

(** Modelled from the spec: [clk_prepare_enable], the reference-counted
    enable request; its result is 0 on success. *)
Definition clk_prepare_enable : io Z := fun s =>
  let r := clk_enable_result s in
  let n := if r =? 0 then clk_enable_count s + 1 else clk_enable_count s in
  (r, log (EvClkEnable r)
          (Device (regs s) (clk_rate s) n (clk_enable_result s) (trace s))).

(** Modelled from the spec: [clk_disable_unprepare], the release of one
    enable request. *)
Definition clk_disable_unprepare : io unit := fun s =>
  (tt, log EvClkDisable
           (Device (regs s) (clk_rate s) (clk_enable_count s - 1)
                   (clk_enable_result s) (trace s))).

(** The events a computation adds to the trace of [s]. *)
Definition events_of {A} (m : io A) (s : device) : list event :=
  drop (length (trace s)) (trace (snd (m s))).

Definition is_write (e : event) : bool :=
  match e with EvWrite _ _ => true | _ => false end.

Definition is_read (e : event) : bool :=
  match e with EvRead _ _ => true | _ => false end.

Definition is_clk (e : event) : bool :=
  match e with EvClkEnable _ | EvClkDisable => true | _ => false end.

(** The values written to the register at [offset], oldest first. *)
Fixpoint writes_to (offset : Z) (t : list event) : list Z :=
  match t with
  | [] => []
  | EvWrite d o :: t' =>
      if o =? offset then d :: writes_to offset t' else writes_to offset t'
  | _ :: t' => writes_to offset t'
  end.

Definition count_writes (t : list event) : nat :=
  length (List.filter is_write t).

(** The device a computation leaves behind. *)
Definition exec {A} (m : io A) (s : device) : device := snd (m s).

End Platform.
Export Platform.

(** ** The driver *)

Definition TCSR0 : Z := 0x00.
Definition TLR0  : Z := 0x04.
Definition TCR0  : Z := 0x08.
Definition TCSR1 : Z := 0x10.
Definition TLR1  : Z := 0x14.
Definition TCR1  : Z := 0x18.

Definition TCSR_MDT   : Z := Z.shiftl 1 0.
Definition TCSR_UDT   : Z := Z.shiftl 1 1.
Definition TCSR_GENT  : Z := Z.shiftl 1 2.
Definition TCSR_CAPT  : Z := Z.shiftl 1 3.
Definition TCSR_ARHT  : Z := Z.shiftl 1 4.
Definition TCSR_LOAD  : Z := Z.shiftl 1 5.
Definition TCSR_ENIT  : Z := Z.shiftl 1 6.
Definition TCSR_ENT   : Z := Z.shiftl 1 7.
Definition TCSR_TINT  : Z := Z.shiftl 1 8.
Definition TCSR_PWMA  : Z := Z.shiftl 1 9.
Definition TCSR_ENALL : Z := Z.shiftl 1 10.

(** Bit positions of the flags the statements below talk about. *)
Definition GENT_BIT  : Z := 2.
Definition LOAD_BIT  : Z := 5.
Definition ENT_BIT   : Z := 7.
Definition ENALL_BIT : Z := 10.

Infix "|'" := Z.lor (at level 50, left associativity).
Infix "&'" := Z.land (at level 40, left associativity).

Section Driver.

Context (dm : data_model).

(** [writel_xlnx]: the data argument is an [unsigned long]; [writel] stores
    its low 32 bits. *)
Definition writel_xlnx (data offset : Z) : io unit :=
  writel (ulong dm data) offset.

(** The values [xlnx_pwm_config] has computed when it reaches its first
    register access (the locals [period_cycles], [duty_cycles], [tcsr0],
    [tcsr1]), together with the two 64-bit quotients they come from. *)
Record timer_program := TimerProgram {
  period_c : Z;
  duty_c : Z;
  period_cycles : Z;
  duty_cycles : Z;
  tcsr0 : Z;
  tcsr1 : Z
}.

(** The 64-bit computation [c = clkrate * ns; do_div(c, 1000000000);],
    which the function performs once for the period and once for the
    duty.  [ns] is an [int], converted to [unsigned long long] for the
    multiplication. *)
Definition cycles (clkrate ns : Z) : Z :=
  let c := ull (clkrate * ull ns) in
  fst (do_div c 1000000000).

(** Lines 58-73 of the driver: cycle counts and control words.  [rate] is
    the value returned by [clk_get_rate]. *)
Definition xlnx_pwm_plan (rate duty_ns period_ns : Z) : timer_program :=
  let tcsr0 := ulong dm (TCSR_UDT |' TCSR_GENT |' TCSR_ARHT |' TCSR_PWMA) in
  let tcsr1 := ulong dm (TCSR_UDT |' TCSR_GENT |' TCSR_ARHT |' TCSR_PWMA) in
  let clkrate := ull rate in
  let c_period := cycles clkrate period_ns in
  let period_cycles := ulong dm c_period in
  let c := cycles clkrate duty_ns in
  let duty_cycles := ulong dm c in
  if c =? 0 then
    (* always OFF *)
    TimerProgram c_period c period_cycles duty_cycles
                 (tcsr0 &' ulong dm (Z.lnot TCSR_GENT)) tcsr1
  else if c =? ull period_cycles then
    (* always ON *)
    TimerProgram c_period c period_cycles duty_cycles
                 tcsr0 (tcsr1 &' ulong dm (Z.lnot TCSR_GENT))
  else
    TimerProgram c_period c period_cycles duty_cycles tcsr0 tcsr1.

(** Lines 80-97 of the driver: the register sequence. *)
Definition xlnx_pwm_apply (p : timer_program) : io unit :=
  _ ← clk_prepare_enable;
  (* Stop PWM *)
  writel_xlnx 0 TCSR0;;
  writel_xlnx 0 TCSR1;;
  (* Update counter preset value *)
  writel_xlnx (period_cycles p) TLR0;;
  writel_xlnx (duty_cycles p) TLR1;;
  (* Load counter *)
  writel_xlnx TCSR_LOAD TCSR0;;
  writel_xlnx TCSR_LOAD TCSR1;;
  (* Setup control registers *)
  writel_xlnx (tcsr0 p) TCSR0;;
  writel_xlnx (tcsr1 p) TCSR1;;
  (* Start PWM *)
  writel_xlnx (tcsr1 p |' TCSR_ENALL) TCSR1;;
  clk_disable_unprepare.

Definition xlnx_pwm_config (duty_ns period_ns : Z) : io Z :=
  rate ← clk_get_rate dm;
  xlnx_pwm_apply (xlnx_pwm_plan rate duty_ns period_ns);;
  mret 0.

Definition xlnx_pwm_enable : io Z :=
  writel_xlnx 0 TCSR0;;
  writel_xlnx 0 TCSR1;;
  v0 ← readl TLR0;
  writel_xlnx v0 TLR0;;
  v1 ← readl TLR1;
  writel_xlnx v1 TLR1;;
  writel_xlnx TCSR_LOAD TCSR0;;
  writel_xlnx TCSR_LOAD TCSR1;;
  writel_xlnx (TCSR_UDT |' TCSR_GENT |' TCSR_ARHT |' TCSR_PWMA) TCSR0;;
  writel_xlnx (TCSR_UDT |' TCSR_GENT |' TCSR_ARHT |' TCSR_PWMA |' TCSR_ENALL) TCSR1;;
  clk_prepare_enable.

Definition xlnx_pwm_disable : io unit :=
  writel_xlnx 0 TCSR0;;
  writel_xlnx 0 TCSR1;;
  clk_disable_unprepare.

End Driver.

(** ** Vocabulary of the statements *)

Section Vocabulary.

(** The baseline control word: count down, external generate, auto
    reload, PWM mode. *)
Definition TCSR_BASELINE : Z := TCSR_UDT |' TCSR_GENT |' TCSR_ARHT |' TCSR_PWMA.

(** The program [xlnx_pwm_config] builds when it runs on device [s]: the
    clock rate is read from the device on every call. *)
Definition planned (dm : data_model) (s : device) (duty_ns period_ns : Z)
  : timer_program :=
  xlnx_pwm_plan dm (ulong dm (clk_rate s)) duty_ns period_ns.

(** The events of [xlnx_pwm_apply], in program order. *)
Definition apply_events (r : Z) (p : timer_program) : list event :=
  [ EvClkEnable r;
    EvWrite 0 TCSR0; EvWrite 0 TCSR1;
    EvWrite (u32 (period_cycles p)) TLR0;
    EvWrite (u32 (duty_cycles p)) TLR1;
    EvWrite TCSR_LOAD TCSR0; EvWrite TCSR_LOAD TCSR1;
    EvWrite (u32 (tcsr0 p)) TCSR0; EvWrite (u32 (tcsr1 p)) TCSR1;
    EvWrite (u32 (tcsr1 p |' TCSR_ENALL)) TCSR1;
    EvClkDisable ].

(** The events of [xlnx_pwm_enable]; [v0] and [v1] are the values read
    back from the two load registers. *)
Definition enable_events (v0 v1 r : Z) : list event :=
  [ EvWrite 0 TCSR0; EvWrite 0 TCSR1;
    EvRead TLR0 v0; EvWrite v0 TLR0;
    EvRead TLR1 v1; EvWrite v1 TLR1;
    EvWrite TCSR_LOAD TCSR0; EvWrite TCSR_LOAD TCSR1;
    EvWrite TCSR_BASELINE TCSR0;
    EvWrite (TCSR_BASELINE |' TCSR_ENALL) TCSR1;
    EvClkEnable r ].

Definition disable_events : list event :=
  [ EvWrite 0 TCSR0; EvWrite 0 TCSR1; EvClkDisable ].

(** A write to one of the two control registers whose data has [bit] set. *)
Definition carries (bit : Z) (e : event) : bool :=
  match e with
  | EvWrite d o => ((o =? TCSR0) || (o =? TCSR1)) && Z.testbit d bit
  | _ => false
  end.

(** A device clocked at 100 MHz, one enable request outstanding, empty
    register store. *)
Definition dev_100MHz : device := Device ∅ 100000000 1 0 [].

(** A device clocked at 4 GHz. *)
Definition dev_4GHz : device := Device ∅ 4000000000 1 0 [].

End Vocabulary.

(** ** The frame-buffer driver (drivers/video/fbdev/xilinx-hdfb.c) *)

Section Framebuffer.

Definition REG_CTRL : Z := 0.
Definition REG_CTRL_ENABLE : Z := 0x81.

Definition RED_SHIFT : Z := 16.
Definition GREEN_SHIFT : Z := 8.
Definition BLUE_SHIFT : Z := 0.

Definition PALETTE_ENTRIES_NO : Z := 16.

(** The error number from <linux/errno.h>, which is not part of the driver
    file. *)
Definition EINVAL : Z := 22.

(** The blanking levels of <linux/fb.h>, which is not part of the driver
    file. *)
Definition FB_BLANK_UNBLANK : Z := 0.
Definition FB_BLANK_NORMAL : Z := 1.
Definition FB_BLANK_VSYNC_SUSPEND : Z := 2.
Definition FB_BLANK_HSYNC_SUSPEND : Z := 3.
Definition FB_BLANK_POWERDOWN : Z := 4.

(** The two fields of [struct fb_info] that [xilinx_fb_setcolreg] uses:
    [var.grayscale] and the 16 words [pseudo_palette] points to. *)
Record fb_info := FbInfo {
  var_grayscale : Z;
  pseudo_palette : list Z
}.

(** [xilinx_fb_out32]: a 32-bit store at byte offset [offset << 2] of the
    register window; [iowrite32] is the same store as [writel]. *)
Definition xilinx_fb_out32 (offset val : Z) : io unit :=
  writel val (u32 (Z.shiftl offset 2)).

(** [xilinx_fb_setcolreg]; the colour arguments and [regno] are
    [unsigned int], so every operation is reduced modulo 2^32. *)
Definition xilinx_fb_setcolreg (regno red green blue transp : Z) (fbi : fb_info)
  : Z * fb_info :=
  if PALETTE_ENTRIES_NO <=? regno then (- EINVAL, fbi)
  else
    let '(red, green, blue) :=
      if var_grayscale fbi =? 0 then (red, green, blue)
      else
        (* grayscale = 0.30*R + 0.59*G + 0.11*B *)
        let blue :=
          Z.shiftr (u32 (u32 (u32 (u32 (red * 77) + u32 (green * 151))
                              + u32 (blue * 28)) + 127)) 8 in
        let green := blue in
        let red := green in
        (red, green, blue) in
    (* We only handle 8 bits of each color. *)
    let red := Z.shiftr red 8 in
    let green := Z.shiftr green 8 in
    let blue := Z.shiftr blue 8 in
    let word := u32 (Z.shiftl red RED_SHIFT) |' u32 (Z.shiftl green GREEN_SHIFT)
                |' u32 (Z.shiftl blue BLUE_SHIFT) in
    (0, FbInfo (var_grayscale fbi)
               (<[Z.to_nat regno := word]> (pseudo_palette fbi))).

(** [xilinx_fb_blank]; [reg_ctrl_default] is the field of the driver data.
    The four blanking cases share one arm, which falls through to the
    empty default arm. *)
Definition xilinx_fb_blank (blank_mode reg_ctrl_default : Z) : io Z :=
  (if blank_mode =? FB_BLANK_UNBLANK then
     (* turn on panel *)
     xilinx_fb_out32 REG_CTRL reg_ctrl_default
   else if (blank_mode =? FB_BLANK_NORMAL)
           || (blank_mode =? FB_BLANK_VSYNC_SUSPEND)
           || (blank_mode =? FB_BLANK_HSYNC_SUSPEND)
           || (blank_mode =? FB_BLANK_POWERDOWN) then
     (* turn off panel *)
     xilinx_fb_out32 REG_CTRL 0
   else mret tt);;
  mret 0.

(** The colour fields of a palette word. *)
Definition red_field (word : Z) : Z := Z.shiftr word RED_SHIFT &' 0xFF.
Definition green_field (word : Z) : Z := Z.shiftr word GREEN_SHIFT &' 0xFF.
Definition blue_field (word : Z) : Z := Z.shiftr word BLUE_SHIFT &' 0xFF.

(** The luminance [xilinx_fb_setcolreg] computes in grayscale mode. *)
Definition luminance (red green blue : Z) : Z :=
  (red * 77 + green * 151 + blue * 28 + 127) / 256.

End Framebuffer.

(** ** Sample devices *)

Section Samples.

(** A device whose clock refuses to be enabled (the request returns -5). *)
Definition dev_clk_fault : device := Device ∅ 100000000 1 (-5) [].

(** A device whose load registers hold 2000000 and 500000. *)
Definition dev_loaded : device :=
  Device (<[TLR1 := 500000]> (<[TLR0 := 2000000]> ∅)) 100000000 0 0 [].

(** A frame buffer in colour mode and one in grayscale mode, palettes
    cleared. *)
Definition fb_colour : fb_info := FbInfo 0 (replicate 16 0).
Definition fb_gray : fb_info := FbInfo 1 (replicate 16 0).

End Samples.

(** * Proofs *)

(** Unfolds a computation of the driver down to the device it returns. *)
Ltac io_run :=
  cbv beta iota zeta delta
  [xlnx_pwm_config xlnx_pwm_apply xlnx_pwm_enable xlnx_pwm_disable
   mbind mret io_bind io_ret writel_xlnx writel readl
   clk_prepare_enable clk_disable_unprepare clk_get_rate log events_of
   trace regs clk_rate clk_enable_count clk_enable_result fst snd].

Ltac offsets_differ := unfold TCSR0, TCSR1, TLR0, TLR1; lia.

(** ** Integer conversions *)

Section Conversions.

Lemma two_p_long_pos dm : 0 < 2 ^ BITS_PER_LONG dm.
Proof. destruct dm; cbn [BITS_PER_LONG]; lia. Qed.

Lemma to_unsigned_small w x : 0 <= x < 2 ^ w -> to_unsigned w x = x.
Proof. intros H. unfold to_unsigned. apply Z.mod_small. exact H. Qed.

Lemma ull_small x : 0 <= x < 2 ^ 64 -> ull x = x.
Proof. apply to_unsigned_small. Qed.

Lemma ulong_small dm x : 0 <= x < 2 ^ BITS_PER_LONG dm -> ulong dm x = x.
Proof. apply to_unsigned_small. Qed.

Lemma ull_range x : 0 <= ull x < 2 ^ 64.
Proof. unfold ull, to_unsigned. apply Z.mod_pos_bound. lia. Qed.

Lemma ulong_range dm x : 0 <= ulong dm x < 2 ^ BITS_PER_LONG dm.
Proof. unfold ulong, to_unsigned. apply Z.mod_pos_bound, two_p_long_pos. Qed.

(** Storing an [unsigned long] through [writel] keeps the low 32 bits of
    the value it was converted from, whatever the width of [long]. *)
Lemma u32_ulong dm x : u32 (ulong dm x) = u32 x.
Proof.
  unfold u32, ulong, to_unsigned.
  destruct dm; cbn [BITS_PER_LONG].
  - apply Z.mod_mod. lia.
  - apply Z.mod_mod_divide. exists (2 ^ 32). reflexivity.
Qed.

Lemma u32_idem x : u32 (u32 x) = u32 x.
Proof. unfold u32, to_unsigned. apply Z.mod_mod. lia. Qed.

(** An [unsigned long] converts to [unsigned long long] unchanged. *)
Lemma ull_ulong dm x : ull (ulong dm x) = ulong dm x.
Proof.
  apply ull_small. pose proof (ulong_range dm x) as H.
  destruct dm; cbn [BITS_PER_LONG] in H; lia.
Qed.

End Conversions.

(** ** The control words *)

Section ControlWords.

Lemma baseline_word dm : ulong dm TCSR_BASELINE = 0x216.
Proof. destruct dm; reflexivity. Qed.

Lemma gent_masked_word dm : 0x216 &' ulong dm (Z.lnot TCSR_GENT) = 0x212.
Proof. destruct dm; reflexivity. Qed.

Lemma cycles_zero_ns clkrate : cycles clkrate 0 = 0.
Proof.
  unfold cycles, do_div. cbn [fst].
  change (ull 0) with 0. rewrite Z.mul_0_r. reflexivity.
Qed.

(** The three shapes a program can take, by the two tests of the driver. *)
Lemma plan_unfold dm rate duty_ns period_ns :
  let cp := cycles (ull rate) period_ns in
  let cd := cycles (ull rate) duty_ns in
  xlnx_pwm_plan dm rate duty_ns period_ns =
    if cd =? 0 then TimerProgram cp cd (ulong dm cp) (ulong dm cd) 0x212 0x216
    else if cd =? ulong dm cp
         then TimerProgram cp cd (ulong dm cp) (ulong dm cd) 0x216 0x212
         else TimerProgram cp cd (ulong dm cp) (ulong dm cd) 0x216 0x216.
Proof.
  intros cp cd. unfold xlnx_pwm_plan. fold TCSR_BASELINE. fold cp. fold cd.
  rewrite ull_ulong, !baseline_word, !gent_masked_word. reflexivity.
Qed.

Lemma plan_period_c dm rate duty_ns period_ns :
  period_c (xlnx_pwm_plan dm rate duty_ns period_ns) = cycles (ull rate) period_ns.
Proof. rewrite plan_unfold. cbv zeta. repeat case_match; reflexivity. Qed.

Lemma plan_duty_c dm rate duty_ns period_ns :
  duty_c (xlnx_pwm_plan dm rate duty_ns period_ns) = cycles (ull rate) duty_ns.
Proof. rewrite plan_unfold. cbv zeta. repeat case_match; reflexivity. Qed.

Lemma plan_period_cycles dm rate duty_ns period_ns :
  period_cycles (xlnx_pwm_plan dm rate duty_ns period_ns)
  = ulong dm (cycles (ull rate) period_ns).
Proof. rewrite plan_unfold. cbv zeta. repeat case_match; reflexivity. Qed.

Lemma plan_duty_cycles dm rate duty_ns period_ns :
  duty_cycles (xlnx_pwm_plan dm rate duty_ns period_ns)
  = ulong dm (cycles (ull rate) duty_ns).
Proof. rewrite plan_unfold. cbv zeta. repeat case_match; reflexivity. Qed.

(** Whatever the request, the two control words are the baseline with at
    most one of the two generate bits removed. *)
Lemma plan_words dm rate duty_ns period_ns :
  let p := xlnx_pwm_plan dm rate duty_ns period_ns in
  (tcsr0 p = 0x212 /\ tcsr1 p = 0x216) \/
  (tcsr0 p = 0x216 /\ tcsr1 p = 0x212) \/
  (tcsr0 p = 0x216 /\ tcsr1 p = 0x216).
Proof.
  cbv zeta. rewrite plan_unfold. cbv zeta.
  repeat case_match; cbn [tcsr0 tcsr1]; auto.
Qed.

End ControlWords.

(** ** Cycle conversion *)

Section CycleConversion.

(** As long as the product fits in 64 bits, the conversion is the exact
    rounded-down quotient. *)
Lemma cycles_exact rate_hz ns :
  0 <= rate_hz -> 0 <= ns -> rate_hz * ns < 2 ^ 64 ->
  cycles (ull rate_hz) ns = rate_hz * ns / 1000000000.
Proof.
  intros Hr Hn Hfit.
  destruct (Z.eq_dec ns 0) as [-> | Hns].
  { rewrite cycles_zero_ns, Z.mul_0_r. reflexivity. }
  destruct (Z.eq_dec rate_hz 0) as [-> | Hrate].
  { unfold cycles, do_div. cbn [fst]. change (ull 0) with 0.
    rewrite !Z.mul_0_l. reflexivity. }
  unfold cycles, do_div. cbn [fst].
  rewrite (ull_small rate_hz) by nia.
  rewrite (ull_small ns) by nia.
  rewrite ull_small by nia.
  reflexivity.
Qed.

(** With a 32-bit [unsigned long] the rate is below 2^32 and an [int]
    below 2^31, so the product always fits. *)
Lemma cycles_exact_ilp32 rate_hz ns :
  0 <= rate_hz <= ULONG_MAX ILP32 -> 0 <= ns <= INT_MAX ->
  cycles (ull rate_hz) ns = rate_hz * ns / 1000000000.
Proof.
  unfold ULONG_MAX, INT_MAX. cbn [BITS_PER_LONG]. intros Hr Hn.
  apply cycles_exact; nia.
Qed.

Lemma cycles_nonneg clkrate ns : 0 <= cycles clkrate ns.
Proof.
  unfold cycles, do_div. cbn [fst].
  apply Z.div_pos; [apply ull_range | lia].
Qed.

Lemma cycles_mono rate_hz ns1 ns2 :
  0 <= rate_hz -> 0 <= ns1 <= ns2 -> rate_hz * ns2 < 2 ^ 64 ->
  cycles (ull rate_hz) ns1 <= cycles (ull rate_hz) ns2.
Proof.
  intros Hr Hn Hfit.
  rewrite !cycles_exact by nia.
  apply Z.div_le_mono; nia.
Qed.

End CycleConversion.

(** ** The register sequences *)

Section Sequencer.

Context (dm : data_model).

Lemma drop_own_prefix (t e : list event) : drop (length t) (t ++ e) = e.
Proof. rewrite drop_app_length. reflexivity. Qed.

Lemma apply_trace p s :
  trace (snd (xlnx_pwm_apply dm p s))
  = trace s ++ apply_events (clk_enable_result s) p.
Proof.
  destruct s as [rg rate n r t]. io_run.
  rewrite !u32_ulong, <- !app_assoc. reflexivity.
Qed.

Lemma apply_clk_count p s :
  clk_enable_count (snd (xlnx_pwm_apply dm p s))
  = (if clk_enable_result s =? 0
     then clk_enable_count s + 1 else clk_enable_count s) - 1.
Proof. destruct s as [rg rate n r t]. io_run. reflexivity. Qed.

Lemma apply_clk_result p s :
  clk_enable_result (snd (xlnx_pwm_apply dm p s)) = clk_enable_result s.
Proof. destruct s as [rg rate n r t]. io_run. reflexivity. Qed.

Lemma apply_regs p s :
  regs (snd (xlnx_pwm_apply dm p s)) =
    <[TCSR1 := u32 (tcsr1 p |' TCSR_ENALL)]>
    (<[TCSR1 := u32 (tcsr1 p)]> (<[TCSR0 := u32 (tcsr0 p)]>
    (<[TCSR1 := TCSR_LOAD]> (<[TCSR0 := TCSR_LOAD]>
    (<[TLR1 := u32 (duty_cycles p)]> (<[TLR0 := u32 (period_cycles p)]>
    (<[TCSR1 := 0]> (<[TCSR0 := 0]> (regs s))))))))).
Proof.
  destruct s as [rg rate n r t]. io_run. rewrite !u32_ulong. reflexivity.
Qed.

Lemma apply_events_loads r p :
  writes_to TLR0 (apply_events r p) = [u32 (period_cycles p)] /\
  writes_to TLR1 (apply_events r p) = [u32 (duty_cycles p)].
Proof. split; reflexivity. Qed.

Lemma apply_events_count_writes r p : count_writes (apply_events r p) = 9%nat.
Proof. reflexivity. Qed.

Lemma config_result duty_ns period_ns s :
  fst (xlnx_pwm_config dm duty_ns period_ns s) = 0.
Proof. destruct s as [rg rate n r t]. io_run. reflexivity. Qed.

Lemma config_state duty_ns period_ns s :
  snd (xlnx_pwm_config dm duty_ns period_ns s)
  = snd (xlnx_pwm_apply dm (planned dm s duty_ns period_ns) s).
Proof. destruct s as [rg rate n r t]. io_run. reflexivity. Qed.

Lemma config_events duty_ns period_ns s :
  events_of (xlnx_pwm_config dm duty_ns period_ns) s
  = apply_events (clk_enable_result s) (planned dm s duty_ns period_ns).
Proof.
  unfold events_of. rewrite config_state, apply_trace.
  apply drop_own_prefix.
Qed.

Lemma enable_run s :
  let v0 := u32 (default 0 (regs s !! TLR0)) in
  let v1 := u32 (default 0 (regs s !! TLR1)) in
  fst (xlnx_pwm_enable dm s) = clk_enable_result s /\
  trace (snd (xlnx_pwm_enable dm s))
  = trace s ++ enable_events v0 v1 (clk_enable_result s).
Proof.
  destruct s as [rg rate n r t]. io_run. split; [reflexivity |].
  rewrite !u32_ulong, !u32_idem, <- !app_assoc.
  rewrite !lookup_insert_ne by offsets_differ.
  reflexivity.
Qed.

Lemma disable_regs s :
  regs (snd (xlnx_pwm_disable dm s))
  = <[TCSR1 := 0]> (<[TCSR0 := 0]> (regs s)).
Proof. destruct s as [rg rate n r t]. io_run. reflexivity. Qed.

Lemma disable_clk_count s :
  clk_enable_count (snd (xlnx_pwm_disable dm s)) = clk_enable_count s - 1.
Proof. destruct s as [rg rate n r t]. io_run. reflexivity. Qed.

Lemma disable_trace s :
  trace (snd (xlnx_pwm_disable dm s)) = trace s ++ disable_events.
Proof.
  destruct s as [rg rate n r t]. io_run.
  rewrite <- !app_assoc. reflexivity.
Qed.

End Sequencer.

(** ** Waveform planning: the boundary cases *)

Section Planning.

(** Claim C4.  A request with [duty_ns = 0] gives the always-OFF program
    for every clock rate and every period: the generate bit of counter A
    (TCSR0) is cleared, that of counter B (TCSR1) is set, and the duty
    count is zero.  With [period_ns = 0] as well, the period count is
    zero too and the program is the same always-OFF one. *)
Theorem plan_zero_duty_always_off dm rate_hz period_ns :
  Z.testbit (tcsr0 (xlnx_pwm_plan dm rate_hz 0 period_ns)) GENT_BIT = false /\
  Z.testbit (tcsr1 (xlnx_pwm_plan dm rate_hz 0 period_ns)) GENT_BIT = true /\
  duty_c (xlnx_pwm_plan dm rate_hz 0 period_ns) = 0 /\
  duty_cycles (xlnx_pwm_plan dm rate_hz 0 period_ns) = 0 /\
  period_c (xlnx_pwm_plan dm rate_hz 0 0) = 0 /\
  period_cycles (xlnx_pwm_plan dm rate_hz 0 0) = 0 /\
  duty_cycles (xlnx_pwm_plan dm rate_hz 0 0) = 0 /\
  Z.testbit (tcsr0 (xlnx_pwm_plan dm rate_hz 0 0)) GENT_BIT = false /\
  Z.testbit (tcsr1 (xlnx_pwm_plan dm rate_hz 0 0)) GENT_BIT = true.
Proof.
  rewrite !plan_unfold. cbv zeta. rewrite !cycles_zero_ns.
  change (0 =? 0) with true. cbn [tcsr0 tcsr1 duty_c duty_cycles period_c period_cycles].
  assert (ulong dm 0 = 0) as -> by (destruct dm; reflexivity).
  repeat split; reflexivity.
Qed.

(** Claim C2, as amended.  With [duty_ns = period_ns > 0] and a positive
    rate, the program is the always-ON one (generate bit of counter B
    cleared, that of counter A set) provided the cycle count
    [rate_hz * period_ns / 10^9] is at least one and is computed without
    wrap-around: the product fits in 64 bits and the quotient fits in an
    [unsigned long]. *)
Theorem plan_full_duty_always_on dm rate_hz period_ns :
  0 < rate_hz -> 0 < period_ns ->
  rate_hz * period_ns < 2 ^ 64 ->
  1000000000 <= rate_hz * period_ns ->
  rate_hz * period_ns / 1000000000 < 2 ^ BITS_PER_LONG dm ->
  Z.testbit (tcsr1 (xlnx_pwm_plan dm rate_hz period_ns period_ns)) GENT_BIT = false /\
  Z.testbit (tcsr0 (xlnx_pwm_plan dm rate_hz period_ns period_ns)) GENT_BIT = true.
Proof.
  intros Hr Hp Hfit Hone Hlong.
  rewrite plan_unfold. cbv zeta.
  rewrite cycles_exact by lia.
  assert (0 < rate_hz * period_ns / 1000000000) as Hq
    by (apply Z.div_str_pos; lia).
  rewrite ulong_small by lia.
  destruct (Z.eqb_spec (rate_hz * period_ns / 1000000000) 0) as [E | _];
    [lia |].
  rewrite Z.eqb_refl. split; reflexivity.
Qed.

(** Claim C3, as amended.  With [0 < duty_ns < period_ns] and a positive
    rate, both generate bits are set provided the duty count is at least
    one cycle, is smaller than the period count, and both are computed
    without wrap-around. *)
Theorem plan_partial_duty_modulates dm rate_hz duty_ns period_ns :
  0 < rate_hz -> 0 < duty_ns < period_ns ->
  rate_hz * period_ns < 2 ^ 64 ->
  1000000000 <= rate_hz * duty_ns ->
  rate_hz * duty_ns / 1000000000 < rate_hz * period_ns / 1000000000 ->
  rate_hz * period_ns / 1000000000 < 2 ^ BITS_PER_LONG dm ->
  Z.testbit (tcsr0 (xlnx_pwm_plan dm rate_hz duty_ns period_ns)) GENT_BIT = true /\
  Z.testbit (tcsr1 (xlnx_pwm_plan dm rate_hz duty_ns period_ns)) GENT_BIT = true.
Proof.
  intros Hr Hd Hfit Hone Hlt Hlong.
  rewrite plan_unfold. cbv zeta.
  rewrite !cycles_exact by nia.
  assert (0 < rate_hz * duty_ns / 1000000000) as Hq
    by (apply Z.div_str_pos; lia).
  rewrite ulong_small by lia.
  destruct (Z.eqb_spec (rate_hz * duty_ns / 1000000000) 0) as [E | _];
    [lia |].
  destruct (Z.eqb_spec (rate_hz * duty_ns / 1000000000)
                       (rate_hz * period_ns / 1000000000)) as [E | _];
    [lia |].
  split; reflexivity.
Qed.

(** Claim C7, as amended.  The conversion is the rounded-down quotient
    [rate_hz * ns / 10^9] for all non-negative inputs whose product fits in
    the 64 bits of the intermediate value; both counts of a program are
    computed this way. *)
Theorem cycles_is_floor_when_product_fits rate_hz ns :
  0 <= rate_hz -> 0 <= ns -> rate_hz * ns < 2 ^ 64 ->
  cycles (ull rate_hz) ns = rate_hz * ns / 1000000000 /\
  1000000000 * cycles (ull rate_hz) ns <= rate_hz * ns
    < 1000000000 * (cycles (ull rate_hz) ns + 1) /\
  (forall dm duty_ns,
      period_c (xlnx_pwm_plan dm rate_hz duty_ns ns) = rate_hz * ns / 1000000000) /\
  (forall dm period_ns,
      duty_c (xlnx_pwm_plan dm rate_hz ns period_ns) = rate_hz * ns / 1000000000).
Proof.
  intros Hr Hn Hfit.
  pose proof (cycles_exact rate_hz ns Hr Hn Hfit) as E.
  split; [exact E |]. split.
  - rewrite E.
    pose proof (Z.mul_div_le (rate_hz * ns) 1000000000 ltac:(lia)).
    pose proof (Z.mul_succ_div_gt (rate_hz * ns) 1000000000 ltac:(lia)).
    lia.
  - split; intros.
    + rewrite plan_period_c. exact E.
    + rewrite plan_duty_c. exact E.
Qed.

End Planning.

Section PlanningExamples.

(** The three scenarios of the specification. *)
Example plan_20ms_5ms :
  xlnx_pwm_plan ILP32 100000000 5000000 20000000
  = TimerProgram 2000000 500000 2000000 500000 0x216 0x216.
Proof. vm_compute. reflexivity. Qed.

Example plan_1ms_off :
  xlnx_pwm_plan ILP32 100000000 0 1000000
  = TimerProgram 100000 0 100000 0 0x212 0x216.
Proof. vm_compute. reflexivity. Qed.

Example plan_1ms_on :
  xlnx_pwm_plan ILP32 50000000 1000000 1000000
  = TimerProgram 50000 50000 50000 50000 0x216 0x212.
Proof. vm_compute. reflexivity. Qed.

(** Claim C2 at 50 MHz with duty = period = 1 ms. *)
Lemma plan_full_duty_always_on_witness :
  (0 < 50000000 /\ 0 < 1000000 /\
   50000000 * 1000000 < 2 ^ 64 /\
   1000000000 <= 50000000 * 1000000 /\
   50000000 * 1000000 / 1000000000 < 2 ^ BITS_PER_LONG ILP32) /\
  (Z.testbit (tcsr1 (xlnx_pwm_plan ILP32 50000000 1000000 1000000)) GENT_BIT = false /\
   Z.testbit (tcsr0 (xlnx_pwm_plan ILP32 50000000 1000000 1000000)) GENT_BIT = true).
Proof.
  split.
  - vm_compute. repeat split; intros; discriminate.
  - apply (plan_full_duty_always_on ILP32 50000000 1000000);
      vm_compute; first [reflexivity | intros; discriminate].
Defined.

(** Claim C2 as stated fails in two ways.  At 100 MHz a full duty of 5 ns
    is less than one cycle, the zero test comes first and the program is
    the always-OFF one.  With a 32-bit [unsigned long], at 4 GHz and 2 s
    the 64-bit duty count 8000000000 is compared with the period count
    held in 32 bits, the two differ and both generate bits stay set. *)
Lemma plan_full_duty_counterexample :
  (0 < 100000000 /\ 0 < 5 /\
   Z.testbit (tcsr1 (xlnx_pwm_plan ILP32 100000000 5 5)) GENT_BIT = true /\
   Z.testbit (tcsr0 (xlnx_pwm_plan ILP32 100000000 5 5)) GENT_BIT = false) /\
  (0 < 4000000000 <= ULONG_MAX ILP32 /\ 0 < 2000000000 <= INT_MAX /\
   duty_c (xlnx_pwm_plan ILP32 4000000000 2000000000 2000000000) = 8000000000 /\
   period_cycles (xlnx_pwm_plan ILP32 4000000000 2000000000 2000000000) = 3705032704 /\
   Z.testbit (tcsr1 (xlnx_pwm_plan ILP32 4000000000 2000000000 2000000000)) GENT_BIT = true).
Proof. vm_compute. repeat split; intros; discriminate. Qed.

(** Claim C3 at 100 MHz with a 20 ms period and a 5 ms duty. *)
Lemma plan_partial_duty_modulates_witness :
  (0 < 100000000 /\ 0 < 5000000 < 20000000 /\
   100000000 * 20000000 < 2 ^ 64 /\
   1000000000 <= 100000000 * 5000000 /\
   100000000 * 5000000 / 1000000000 < 100000000 * 20000000 / 1000000000 /\
   100000000 * 20000000 / 1000000000 < 2 ^ BITS_PER_LONG ILP32) /\
  (Z.testbit (tcsr0 (xlnx_pwm_plan ILP32 100000000 5000000 20000000)) GENT_BIT = true /\
   Z.testbit (tcsr1 (xlnx_pwm_plan ILP32 100000000 5000000 20000000)) GENT_BIT = true).
Proof.
  split.
  - vm_compute. repeat split; intros; discriminate.
  - apply (plan_partial_duty_modulates ILP32 100000000 5000000 20000000);
      vm_compute; first [reflexivity | split; reflexivity | intros; discriminate].
Defined.

(** Claim C3 as stated fails in three ways, all with
    [0 < duty_ns < period_ns].  A duty of 5 ns at 100 MHz is zero cycles:
    always OFF.  A duty of 15 ns and a period of 19 ns are both one cycle:
    always ON.  With a 32-bit [unsigned long], at 4 GHz a 2 s period is
    8000000000 cycles, kept as 3705032704, which is the count of a duty of
    926258176 ns: always ON. *)
Lemma plan_partial_duty_counterexample :
  (0 < 100000000 /\ 0 < 5 < 20 /\
   Z.testbit (tcsr0 (xlnx_pwm_plan ILP32 100000000 5 20)) GENT_BIT = false) /\
  (0 < 100000000 /\ 0 < 15 < 19 /\
   Z.testbit (tcsr1 (xlnx_pwm_plan ILP32 100000000 15 19)) GENT_BIT = false) /\
  (0 < 4000000000 <= ULONG_MAX ILP32 /\ 0 < 926258176 < 2000000000 /\
   2000000000 <= INT_MAX /\
   Z.testbit (tcsr1 (xlnx_pwm_plan ILP32 4000000000 926258176 2000000000)) GENT_BIT = false).
Proof. vm_compute. repeat split; intros; discriminate. Qed.

(** Claim C7 at 100 MHz and 20 ms. *)
Lemma cycles_is_floor_when_product_fits_witness :
  (0 <= 100000000 /\ 0 <= 20000000 /\ 100000000 * 20000000 < 2 ^ 64) /\
  cycles (ull 100000000) 20000000 = 100000000 * 20000000 / 1000000000.
Proof.
  split.
  - vm_compute. repeat split; intros; discriminate.
  - apply (cycles_is_floor_when_product_fits 100000000 20000000);
      vm_compute; first [reflexivity | intros; discriminate].
Defined.

(** Claim C7 as stated fails where the 64-bit product wraps: with a 64-bit
    [unsigned long], a rate of 10 GHz and 2 s give 2 * 10^19, above 2^64,
    and the driver computes 1553255926 cycles where the quotient is
    20000000000. *)
Lemma cycles_wraps_counterexample :
  0 <= 10000000000 <= ULONG_MAX LP64 /\ 0 <= 2000000000 <= INT_MAX /\
  period_c (xlnx_pwm_plan LP64 10000000000 0 2000000000) = 1553255926 /\
  cycles (ull 10000000000) 2000000000 = 1553255926 /\
  10000000000 * 2000000000 / 1000000000 = 20000000000 /\
  cycles (ull 10000000000) 2000000000 <> 10000000000 * 2000000000 / 1000000000.
Proof. vm_compute. repeat split; intros; discriminate. Qed.

End PlanningExamples.

(** ** What [xlnx_pwm_config], [xlnx_pwm_enable] and [xlnx_pwm_disable] do
     to the device *)

Section DeviceClaims.

Lemma planned_words_u32 dm s duty_ns period_ns :
  u32 (tcsr0 (planned dm s duty_ns period_ns)) = tcsr0 (planned dm s duty_ns period_ns) /\
  u32 (tcsr1 (planned dm s duty_ns period_ns)) = tcsr1 (planned dm s duty_ns period_ns) /\
  u32 (tcsr1 (planned dm s duty_ns period_ns) |' TCSR_ENALL)
  = tcsr1 (planned dm s duty_ns period_ns) |' TCSR_ENALL.
Proof.
  unfold planned.
  destruct (plan_words dm (ulong dm (clk_rate s)) duty_ns period_ns)
    as [[-> ->] | [[-> ->] | [-> ->]]]; repeat split; reflexivity.
Qed.

(** Claim C1, as amended.  [xlnx_pwm_config] writes each load register
    once: the period count goes to TLR0 (offset 0x04, counter A) and the
    duty count to TLR1 (offset 0x14, counter B), each as the 32-bit value
    [writel] stores, and that is what the two registers hold afterwards. *)
Theorem config_loads_period_into_A_and_duty_into_B dm s duty_ns period_ns :
  writes_to TLR0 (events_of (xlnx_pwm_config dm duty_ns period_ns) s)
  = [u32 (period_cycles (planned dm s duty_ns period_ns))] /\
  writes_to TLR1 (events_of (xlnx_pwm_config dm duty_ns period_ns) s)
  = [u32 (duty_cycles (planned dm s duty_ns period_ns))] /\
  regs (exec (xlnx_pwm_config dm duty_ns period_ns) s) !! TLR0
  = Some (u32 (period_cycles (planned dm s duty_ns period_ns))) /\
  regs (exec (xlnx_pwm_config dm duty_ns period_ns) s) !! TLR1
  = Some (u32 (duty_cycles (planned dm s duty_ns period_ns))).
Proof.
  unfold exec. rewrite config_events, config_state, apply_regs.
  split; [apply apply_events_loads |]. split; [apply apply_events_loads |].
  split.
  - rewrite !lookup_insert_ne by offsets_differ. apply lookup_insert_eq.
  - rewrite !lookup_insert_ne by offsets_differ. apply lookup_insert_eq.
Qed.

(** Claim C1 as stated fails at 100 MHz, duty 5 ms, period 20 ms: the
    register at 0x14 is loaded with the duty count 500000, not with the
    period count 2000000, and the register at 0x04 with the period count. *)
Lemma config_loads_counterexample :
  TLR0 = 0x04 /\ TLR1 = 0x14 /\
  period_cycles (planned ILP32 dev_100MHz 5000000 20000000) = 2000000 /\
  duty_cycles (planned ILP32 dev_100MHz 5000000 20000000) = 500000 /\
  writes_to TLR1 (events_of (xlnx_pwm_config ILP32 5000000 20000000) dev_100MHz)
  = [500000] /\
  writes_to TLR0 (events_of (xlnx_pwm_config ILP32 5000000 20000000) dev_100MHz)
  = [2000000] /\
  writes_to TLR1 (events_of (xlnx_pwm_config ILP32 5000000 20000000) dev_100MHz)
  <> [period_cycles (planned ILP32 dev_100MHz 5000000 20000000)] /\
  writes_to TLR0 (events_of (xlnx_pwm_config ILP32 5000000 20000000) dev_100MHz)
  <> [duty_cycles (planned ILP32 dev_100MHz 5000000 20000000)].
Proof. vm_compute. repeat split; intros; discriminate. Qed.

(** Claim C5, as amended.  [xlnx_pwm_config] does not validate its
    arguments: for every request it returns 0 and performs its nine
    register writes. *)
Theorem config_accepts_every_request dm s duty_ns period_ns :
  fst (xlnx_pwm_config dm duty_ns period_ns s) = 0 /\
  count_writes (events_of (xlnx_pwm_config dm duty_ns period_ns) s) = 9%nat.
Proof.
  rewrite config_events.
  split; [apply config_result | apply apply_events_count_writes].
Qed.

(** Claim C5 as stated fails for a duty longer than the period and for a
    zero period alike: the call returns 0 and writes nine registers. *)
Lemma config_invalid_request_counterexample :
  (2 > 1 /\
   fst (xlnx_pwm_config ILP32 2 1 dev_100MHz) = 0 /\
   count_writes (events_of (xlnx_pwm_config ILP32 2 1) dev_100MHz) = 9%nat /\
   count_writes (events_of (xlnx_pwm_config ILP32 2 1) dev_100MHz) <> 0%nat) /\
  (fst (xlnx_pwm_config ILP32 0 0 dev_100MHz) = 0 /\
   count_writes (events_of (xlnx_pwm_config ILP32 0 0) dev_100MHz) = 9%nat /\
   count_writes (events_of (xlnx_pwm_config ILP32 0 0) dev_100MHz) <> 0%nat).
Proof. vm_compute. repeat split; intros; discriminate. Qed.

(** Claim C6, as amended.  [xlnx_pwm_config] has no overflow check: it
    returns 0 for every request, and each load register receives the
    64-bit cycle count reduced modulo 2^32. *)
Theorem config_truncates_and_succeeds dm s duty_ns period_ns :
  fst (xlnx_pwm_config dm duty_ns period_ns s) = 0 /\
  writes_to TLR0 (events_of (xlnx_pwm_config dm duty_ns period_ns) s)
  = [period_c (planned dm s duty_ns period_ns) mod 2 ^ 32] /\
  writes_to TLR1 (events_of (xlnx_pwm_config dm duty_ns period_ns) s)
  = [duty_c (planned dm s duty_ns period_ns) mod 2 ^ 32].
Proof.
  rewrite config_events.
  split; [apply config_result |].
  destruct (apply_events_loads (clk_enable_result s)
  (planned dm s duty_ns period_ns)) as [-> ->].
  unfold planned.
  rewrite plan_period_cycles, plan_duty_cycles, plan_period_c, plan_duty_c.
  rewrite !u32_ulong. split; reflexivity.
Qed.

(** Claim C6 as stated fails at 4 GHz with a 2 s period: the period is
    8000000000 cycles, more than a 32-bit counter holds, the call returns
    0 and loads 3705032704. *)
Lemma config_overflow_counterexample :
  0 <= 4000000000 <= ULONG_MAX ILP32 /\
  0 <= 1000000000 <= 2000000000 /\ 2000000000 <= INT_MAX /\
  period_c (planned ILP32 dev_4GHz 1000000000 2000000000) = 8000000000 /\
  2 ^ 32 <= period_c (planned ILP32 dev_4GHz 1000000000 2000000000) /\
  fst (xlnx_pwm_config ILP32 1000000000 2000000000 dev_4GHz) = 0 /\
  writes_to TLR0 (events_of (xlnx_pwm_config ILP32 1000000000 2000000000) dev_4GHz)
  = [3705032704].
Proof. vm_compute. repeat split; intros; discriminate. Qed.

(** Claim C8.  The accesses of [xlnx_pwm_config], in order: the clock is
    requested; zero goes to both control registers; the two counts go to
    the load registers; the load bit is pulsed on both counters; the two
    control words, which carry neither the enable bit nor the enable-all
    bit, are written; the control word of counter B is written once more
    with enable-all; the clock is released.  That last write is the only
    one to a control register that carries enable-all, and none carries
    the per-counter enable bit. *)
Theorem config_register_sequence dm s duty_ns period_ns :
  events_of (xlnx_pwm_config dm duty_ns period_ns) s =
    [ EvClkEnable (clk_enable_result s);
      EvWrite 0 TCSR0;
      EvWrite 0 TCSR1;
      EvWrite (u32 (period_cycles (planned dm s duty_ns period_ns))) TLR0;
      EvWrite (u32 (duty_cycles (planned dm s duty_ns period_ns))) TLR1;
      EvWrite TCSR_LOAD TCSR0;
      EvWrite TCSR_LOAD TCSR1;
      EvWrite (tcsr0 (planned dm s duty_ns period_ns)) TCSR0;
      EvWrite (tcsr1 (planned dm s duty_ns period_ns)) TCSR1;
      EvWrite (tcsr1 (planned dm s duty_ns period_ns) |' TCSR_ENALL) TCSR1;
      EvClkDisable ] /\
  Z.testbit TCSR_LOAD LOAD_BIT = true /\
  Z.testbit (tcsr0 (planned dm s duty_ns period_ns)) ENT_BIT = false /\
  Z.testbit (tcsr0 (planned dm s duty_ns period_ns)) ENALL_BIT = false /\
  Z.testbit (tcsr1 (planned dm s duty_ns period_ns)) ENT_BIT = false /\
  Z.testbit (tcsr1 (planned dm s duty_ns period_ns)) ENALL_BIT = false /\
  Z.testbit (tcsr1 (planned dm s duty_ns period_ns) |' TCSR_ENALL) ENALL_BIT = true /\
  List.filter (carries ENALL_BIT)
              (events_of (xlnx_pwm_config dm duty_ns period_ns) s)
  = [ EvWrite (tcsr1 (planned dm s duty_ns period_ns) |' TCSR_ENALL) TCSR1 ] /\
  List.filter (carries ENT_BIT)
              (events_of (xlnx_pwm_config dm duty_ns period_ns) s)
  = [].
Proof.
  rewrite config_events. unfold apply_events.
  destruct (planned_words_u32 dm s duty_ns period_ns) as (-> & -> & ->).
  unfold planned.
  generalize (period_cycles (xlnx_pwm_plan dm (ulong dm (clk_rate s)) duty_ns period_ns)).
  generalize (duty_cycles (xlnx_pwm_plan dm (ulong dm (clk_rate s)) duty_ns period_ns)).
  intros dc pc.
  destruct (plan_words dm (ulong dm (clk_rate s)) duty_ns period_ns)
    as [[-> ->] | [[-> ->] | [-> ->]]]; repeat split; reflexivity.
Qed.

(** Claim C9, as amended.  When the clock request of [xlnx_pwm_config]
    succeeds, the call releases that request itself and leaves the count
    of outstanding requests as it found it; [xlnx_pwm_disable] right after
    it writes zero to both control registers, which then hold zero, and
    releases one further request, so the count ends one below its value
    before [xlnx_pwm_config]. *)
Theorem config_then_disable dm s duty_ns period_ns :
  clk_enable_result s = 0 ->
  regs (exec (xlnx_pwm_disable dm) (exec (xlnx_pwm_config dm duty_ns period_ns) s))
    !! TCSR0 = Some 0 /\
  regs (exec (xlnx_pwm_disable dm) (exec (xlnx_pwm_config dm duty_ns period_ns) s))
    !! TCSR1 = Some 0 /\
  events_of (xlnx_pwm_disable dm) (exec (xlnx_pwm_config dm duty_ns period_ns) s)
  = [ EvWrite 0 TCSR0; EvWrite 0 TCSR1; EvClkDisable ] /\
  clk_enable_count (exec (xlnx_pwm_config dm duty_ns period_ns) s)
  = clk_enable_count s /\
  clk_enable_count
    (exec (xlnx_pwm_disable dm) (exec (xlnx_pwm_config dm duty_ns period_ns) s))
  = clk_enable_count s - 1.
Proof.
  intros Hok. unfold exec, events_of.
  rewrite disable_regs, disable_trace, disable_clk_count, config_state.
  rewrite apply_clk_count, Hok, Z.eqb_refl.
  split; [| split; [| split; [| split]]].
  - rewrite lookup_insert_ne by offsets_differ. apply lookup_insert_eq.
  - apply lookup_insert_eq.
  - apply drop_own_prefix.
  - lia.
  - lia.
Qed.

(** Claim C9 on a device with one request outstanding. *)
Lemma config_then_disable_witness :
  clk_enable_result dev_100MHz = 0 /\
  regs (exec (xlnx_pwm_disable ILP32)
          (exec (xlnx_pwm_config ILP32 5000000 20000000) dev_100MHz)) !! TCSR0
  = Some 0.
Proof.
  split.
  - reflexivity.
  - apply (config_then_disable ILP32 dev_100MHz 5000000 20000000).
    reflexivity.
Defined.

(** Claim C9 as stated fails on the clock count: starting with one
    outstanding request, [xlnx_pwm_config] followed by [xlnx_pwm_disable]
    ends with none. *)
Lemma config_then_disable_counterexample :
  clk_enable_count dev_100MHz = 1 /\
  clk_enable_count (exec (xlnx_pwm_config ILP32 5000000 20000000) dev_100MHz) = 1 /\
  clk_enable_count
    (exec (xlnx_pwm_disable ILP32)
       (exec (xlnx_pwm_config ILP32 5000000 20000000) dev_100MHz)) = 0 /\
  clk_enable_count
    (exec (xlnx_pwm_disable ILP32)
       (exec (xlnx_pwm_config ILP32 5000000 20000000) dev_100MHz))
  <> clk_enable_count dev_100MHz.
Proof. vm_compute. repeat split; intros; discriminate. Qed.

(** Claim C10.  [xlnx_pwm_enable] performs its eight register writes (and
    the two reads of the load registers that feed two of them) before its
    single clock request, which is the last thing it does, and returns
    the result of that request. *)
Theorem enable_writes_before_clock_request dm s :
  events_of (xlnx_pwm_enable dm) s =
    [ EvWrite 0 TCSR0;
      EvWrite 0 TCSR1;
      EvRead TLR0 (u32 (default 0 (regs s !! TLR0)));
      EvWrite (u32 (default 0 (regs s !! TLR0))) TLR0;
      EvRead TLR1 (u32 (default 0 (regs s !! TLR1)));
      EvWrite (u32 (default 0 (regs s !! TLR1))) TLR1;
      EvWrite TCSR_LOAD TCSR0;
      EvWrite TCSR_LOAD TCSR1;
      EvWrite TCSR_BASELINE TCSR0;
      EvWrite (TCSR_BASELINE |' TCSR_ENALL) TCSR1 ]
    ++ [ EvClkEnable (clk_enable_result s) ] /\
  fst (xlnx_pwm_enable dm s) = clk_enable_result s /\
  count_writes (events_of (xlnx_pwm_enable dm) s) = 8%nat /\
  length (List.filter is_clk (events_of (xlnx_pwm_enable dm) s)) = 1%nat /\
  last (events_of (xlnx_pwm_enable dm) s) = Some (EvClkEnable (clk_enable_result s)).
Proof.
  destruct (enable_run dm s) as [Hret Htrace].
  assert (events_of (xlnx_pwm_enable dm) s
          = enable_events (u32 (default 0 (regs s !! TLR0)))
              (u32 (default 0 (regs s !! TLR1))) (clk_enable_result s)) as ->.
  { unfold events_of. rewrite Htrace. apply drop_own_prefix. }
  generalize (u32 (default 0 (regs s !! TLR0))),
  (u32 (default 0 (regs s !! TLR1))).
  intros v0 v1.
  repeat split; first [exact Hret | reflexivity].
Qed.

End DeviceClaims.


(** ** More on the register sequences *)

Section SequencerFacts.

Context (dm : data_model).

Lemma apply_clk_rate p s :
  clk_rate (snd (xlnx_pwm_apply dm p s)) = clk_rate s.
Proof. destruct s as [rg rate n r t]. io_run. reflexivity. Qed.

Lemma config_clk_rate duty_ns period_ns s :
  clk_rate (snd (xlnx_pwm_config dm duty_ns period_ns s)) = clk_rate s.
Proof. rewrite config_state. apply apply_clk_rate. Qed.

(** What a register holds after [xlnx_pwm_apply]. *)
Lemma apply_regs_lookup p s i :
  regs (snd (xlnx_pwm_apply dm p s)) !! i =
    if decide (i = TCSR1) then Some (u32 (tcsr1 p |' TCSR_ENALL))
    else if decide (i = TCSR0) then Some (u32 (tcsr0 p))
    else if decide (i = TLR1) then Some (u32 (duty_cycles p))
    else if decide (i = TLR0) then Some (u32 (period_cycles p))
    else regs s !! i.
Proof.
  rewrite apply_regs.
  destruct (decide (i = TCSR1)) as [-> | H1]; [apply lookup_insert_eq |].
  destruct (decide (i = TCSR0)) as [-> | H0];
    [rewrite !lookup_insert_ne by congruence; apply lookup_insert_eq |].
  destruct (decide (i = TLR1)) as [-> | H3];
    [rewrite !lookup_insert_ne by congruence; apply lookup_insert_eq |].
  destruct (decide (i = TLR0)) as [-> | H2];
    [rewrite !lookup_insert_ne by congruence; apply lookup_insert_eq |].
  rewrite !lookup_insert_ne by congruence. reflexivity.
Qed.

Lemma apply_regs_at p s :
  regs (snd (xlnx_pwm_apply dm p s)) !! TCSR0 = Some (u32 (tcsr0 p)) /\
  regs (snd (xlnx_pwm_apply dm p s)) !! TCSR1
  = Some (u32 (tcsr1 p |' TCSR_ENALL)) /\
  regs (snd (xlnx_pwm_apply dm p s)) !! TLR0 = Some (u32 (period_cycles p)) /\
  regs (snd (xlnx_pwm_apply dm p s)) !! TLR1 = Some (u32 (duty_cycles p)).
Proof.
  rewrite apply_regs. repeat split.
  - rewrite !lookup_insert_ne by offsets_differ. apply lookup_insert_eq.
  - apply lookup_insert_eq.
  - rewrite !lookup_insert_ne by offsets_differ. apply lookup_insert_eq.
  - rewrite !lookup_insert_ne by offsets_differ. apply lookup_insert_eq.
Qed.

Lemma enable_regs s :
  regs (snd (xlnx_pwm_enable dm s)) =
    <[TCSR1 := TCSR_BASELINE |' TCSR_ENALL]> (<[TCSR0 := TCSR_BASELINE]>
    (<[TCSR1 := TCSR_LOAD]> (<[TCSR0 := TCSR_LOAD]>
    (<[TLR1 := u32 (default 0 (regs s !! TLR1))]>
    (<[TLR0 := u32 (default 0 (regs s !! TLR0))]>
    (<[TCSR1 := 0]> (<[TCSR0 := 0]> (regs s)))))))).
Proof.
  destruct s as [rg rate n r t]. io_run.
  rewrite !u32_ulong, !u32_idem.
  rewrite !lookup_insert_ne by offsets_differ.
  reflexivity.
Qed.

Lemma enable_clk_count s :
  clk_enable_count (snd (xlnx_pwm_enable dm s))
  = if clk_enable_result s =? 0
    then clk_enable_count s + 1 else clk_enable_count s.
Proof. destruct s as [rg rate n r t]. io_run. reflexivity. Qed.

Lemma enable_result s : fst (xlnx_pwm_enable dm s) = clk_enable_result s.
Proof. destruct s as [rg rate n r t]. io_run. reflexivity. Qed.

End SequencerFacts.

(** ** Further properties of the planning step *)

Section PlanningFacts.

(** A duty no longer than the period never gets the larger cycle count, as
    long as the 64-bit product of the period does not wrap. *)
Theorem plan_duty_count_not_above_period dm rate_hz duty_ns period_ns :
  0 <= rate_hz -> 0 <= duty_ns <= period_ns ->
  rate_hz * period_ns < 2 ^ 64 ->
  duty_c (xlnx_pwm_plan dm rate_hz duty_ns period_ns)
  <= period_c (xlnx_pwm_plan dm rate_hz duty_ns period_ns).
Proof.
  intros Hr Hd Hfit. rewrite plan_duty_c, plan_period_c.
  apply cycles_mono; assumption.
Qed.

Lemma plan_duty_count_not_above_period_witness :
  (0 <= 100000000 /\ 0 <= 5000000 <= 20000000 /\
   100000000 * 20000000 < 2 ^ 64) /\
  duty_c (xlnx_pwm_plan ILP32 100000000 5000000 20000000)
  <= period_c (xlnx_pwm_plan ILP32 100000000 5000000 20000000).
Proof.
  split.
  - vm_compute. repeat split; intros; discriminate.
  - apply (plan_duty_count_not_above_period ILP32 100000000 5000000 20000000);
      vm_compute; first [reflexivity | split; intros; discriminate
                        | intros; discriminate].
Defined.

(** For every request the two control words are the baseline word with at
    most the generate bit removed, and never both with it removed: one of
    the two edges of the output is always generated. *)
Theorem plan_control_words_invariant dm rate duty_ns period_ns :
  tcsr0 (xlnx_pwm_plan dm rate duty_ns period_ns) |' TCSR_GENT = TCSR_BASELINE /\
  tcsr1 (xlnx_pwm_plan dm rate duty_ns period_ns) |' TCSR_GENT = TCSR_BASELINE /\
  (Z.testbit (tcsr0 (xlnx_pwm_plan dm rate duty_ns period_ns)) GENT_BIT = true \/
   Z.testbit (tcsr1 (xlnx_pwm_plan dm rate duty_ns period_ns)) GENT_BIT = true).
Proof.
  destruct (plan_words dm rate duty_ns period_ns)
    as [[-> ->] | [[-> ->] | [-> ->]]];
    (split; [reflexivity | split; [reflexivity |]]).
  - right. reflexivity.
  - left. reflexivity.
  - left. reflexivity.
Qed.

(** A duty shorter than one clock cycle counts as zero cycles, and the
    program is the always-OFF one although [duty_ns] may be positive. *)
Theorem plan_subcycle_duty_always_off dm rate_hz duty_ns period_ns :
  0 <= rate_hz -> 0 <= duty_ns -> rate_hz * duty_ns < 1000000000 ->
  duty_c (xlnx_pwm_plan dm rate_hz duty_ns period_ns) = 0 /\
  Z.testbit (tcsr0 (xlnx_pwm_plan dm rate_hz duty_ns period_ns)) GENT_BIT = false /\
  Z.testbit (tcsr1 (xlnx_pwm_plan dm rate_hz duty_ns period_ns)) GENT_BIT = true.
Proof.
  intros Hr Hd Hsmall.
  assert (cycles (ull rate_hz) duty_ns = 0) as E.
  { rewrite cycles_exact by lia. apply Z.div_small. nia. }
  rewrite plan_unfold. cbv zeta. rewrite E.
  change (0 =? 0) with true. cbv iota.
  repeat split; reflexivity.
Qed.

Lemma plan_subcycle_duty_always_off_witness :
  (0 <= 100000000 /\ 0 <= 5 /\ 100000000 * 5 < 1000000000) /\
  duty_c (xlnx_pwm_plan ILP32 100000000 5 20) = 0.
Proof.
  split.
  - vm_compute. repeat split; intros; discriminate.
  - apply (plan_subcycle_duty_always_off ILP32 100000000 5 20);
      vm_compute; first [reflexivity | intros; discriminate].
Defined.

(** A duty that rounds down to the same non-zero cycle count as the period
    gives the always-ON program, whether or not [duty_ns = period_ns]. *)
Theorem plan_equal_counts_always_on dm rate_hz duty_ns period_ns :
  0 < rate_hz -> 0 <= duty_ns -> 0 <= period_ns ->
  rate_hz * duty_ns < 2 ^ 64 -> rate_hz * period_ns < 2 ^ 64 ->
  1000000000 <= rate_hz * duty_ns ->
  rate_hz * duty_ns / 1000000000 = rate_hz * period_ns / 1000000000 ->
  rate_hz * period_ns / 1000000000 < 2 ^ BITS_PER_LONG dm ->
  Z.testbit (tcsr1 (xlnx_pwm_plan dm rate_hz duty_ns period_ns)) GENT_BIT = false /\
  Z.testbit (tcsr0 (xlnx_pwm_plan dm rate_hz duty_ns period_ns)) GENT_BIT = true.
Proof.
  intros Hr Hd Hp Hfd Hfp Hone Heq Hlong.
  rewrite plan_unfold. cbv zeta.
  rewrite !cycles_exact by lia.
  assert (0 < rate_hz * duty_ns / 1000000000) as Hq
    by (apply Z.div_str_pos; lia).
  rewrite ulong_small by lia.
  destruct (Z.eqb_spec (rate_hz * duty_ns / 1000000000) 0) as [E | _];
    [lia |].
  rewrite Heq, Z.eqb_refl. split; reflexivity.
Qed.

Lemma plan_equal_counts_always_on_witness :
  (0 < 100000000 /\ 0 <= 15 /\ 0 <= 19 /\
   100000000 * 15 < 2 ^ 64 /\ 100000000 * 19 < 2 ^ 64 /\
   1000000000 <= 100000000 * 15 /\
   100000000 * 15 / 1000000000 = 100000000 * 19 / 1000000000 /\
   100000000 * 19 / 1000000000 < 2 ^ BITS_PER_LONG ILP32) /\
  (Z.testbit (tcsr1 (xlnx_pwm_plan ILP32 100000000 15 19)) GENT_BIT = false /\
   Z.testbit (tcsr0 (xlnx_pwm_plan ILP32 100000000 15 19)) GENT_BIT = true).
Proof.
  split.
  - vm_compute. repeat split; intros; discriminate.
  - apply (plan_equal_counts_always_on ILP32 100000000 15 19);
      vm_compute; first [reflexivity | intros; discriminate].
Defined.

(** A clock that reports a rate of zero does not fault the computation:
    both counts are zero and the program is the always-OFF one, whatever
    the duty and the period. *)
Theorem plan_zero_rate dm duty_ns period_ns :
  xlnx_pwm_plan dm 0 duty_ns period_ns = TimerProgram 0 0 0 0 0x212 0x216.
Proof.
  assert (forall ns, cycles (ull 0) ns = 0) as E.
  { intros ns. unfold cycles, do_div. cbn [fst]. change (ull 0) with 0.
    rewrite Z.mul_0_l. reflexivity. }
  rewrite plan_unfold. cbv zeta. rewrite !E.
  change (0 =? 0) with true. cbv iota.
  assert (ulong dm 0 = 0) as -> by (destruct dm; reflexivity).
  reflexivity.
Qed.

End PlanningFacts.

(** ** Further properties of the three operations *)

Section DeviceFacts.

(** For any clock of at most 2 GHz and any non-negative [int] arguments the
    cycle counts fit the 32-bit load registers, so the driver loads the exact
    rounded-down counts: the period count into TLR0 and the duty count into
    TLR1. *)
Theorem config_exact_loads_up_to_2GHz dm s duty_ns period_ns :
  0 <= clk_rate s <= 2000000000 ->
  0 <= duty_ns <= INT_MAX -> 0 <= period_ns <= INT_MAX ->
  writes_to TLR0 (events_of (xlnx_pwm_config dm duty_ns period_ns) s)
  = [clk_rate s * period_ns / 1000000000] /\
  writes_to TLR1 (events_of (xlnx_pwm_config dm duty_ns period_ns) s)
  = [clk_rate s * duty_ns / 1000000000].
Proof.
  unfold INT_MAX. intros Hr Hd Hp.
  rewrite config_events.
  destruct (apply_events_loads (clk_enable_result s)
              (planned dm s duty_ns period_ns)) as [-> ->].
  unfold planned.
  rewrite plan_period_cycles, plan_duty_cycles, !u32_ulong.
  rewrite (ulong_small dm (clk_rate s))
    by (destruct dm; cbn [BITS_PER_LONG]; lia).
  rewrite !cycles_exact by nia.
  unfold u32. rewrite !to_unsigned_small; [split; reflexivity | |].
  - split; [apply Z.div_pos; nia | apply Z.div_lt_upper_bound; nia].
  - split; [apply Z.div_pos; nia | apply Z.div_lt_upper_bound; nia].
Qed.

Lemma config_exact_loads_up_to_2GHz_witness :
  (0 <= clk_rate dev_100MHz <= 2000000000 /\
   0 <= 5000000 <= INT_MAX /\ 0 <= 20000000 <= INT_MAX) /\
  writes_to TLR0 (events_of (xlnx_pwm_config LP64 5000000 20000000) dev_100MHz)
  = [clk_rate dev_100MHz * 20000000 / 1000000000].
Proof.
  split.
  - vm_compute. repeat split; intros; discriminate.
  - apply (config_exact_loads_up_to_2GHz LP64 dev_100MHz 5000000 20000000);
      vm_compute; split; intros; discriminate.
Defined.

(** None of the three operations changes a register other than the two
    control and the two load registers; the counter registers TCR0 and TCR1
    in particular are never written. *)
Theorem driver_leaves_other_registers dm s duty_ns period_ns offset :
  offset <> TCSR0 -> offset <> TLR0 -> offset <> TCSR1 -> offset <> TLR1 ->
  regs (exec (xlnx_pwm_config dm duty_ns period_ns) s) !! offset
  = regs s !! offset /\
  regs (exec (xlnx_pwm_enable dm) s) !! offset = regs s !! offset /\
  regs (exec (xlnx_pwm_disable dm) s) !! offset = regs s !! offset.
Proof.
  intros H0 H1 H2 H3. unfold exec. split; [| split].
  - rewrite config_state, apply_regs_lookup.
    repeat case_decide; first [contradiction | reflexivity].
  - rewrite enable_regs, !lookup_insert_ne by congruence. reflexivity.
  - rewrite disable_regs, !lookup_insert_ne by congruence. reflexivity.
Qed.

Lemma driver_leaves_other_registers_witness :
  (TCR0 <> TCSR0 /\ TCR0 <> TLR0 /\ TCR0 <> TCSR1 /\ TCR0 <> TLR1) /\
  regs (exec (xlnx_pwm_config ILP32 5000000 20000000) dev_100MHz) !! TCR0
  = regs dev_100MHz !! TCR0.
Proof.
  split.
  - vm_compute. repeat split; intros; discriminate.
  - apply (driver_leaves_other_registers ILP32 dev_100MHz 5000000 20000000 TCR0);
      vm_compute; intros; discriminate.
Defined.

Lemma config_clk_result dm duty_ns period_ns s :
  clk_enable_result (snd (xlnx_pwm_config dm duty_ns period_ns s))
  = clk_enable_result s.
Proof. rewrite config_state. apply apply_clk_result. Qed.

Lemma planned_after_config dm d1 p1 d2 p2 s :
  planned dm (snd (xlnx_pwm_config dm d1 p1 s)) d2 p2 = planned dm s d2 p2.
Proof. unfold planned. rewrite config_clk_rate. reflexivity. Qed.

(** A configuration does not depend on the one before it: configuring
    twice leaves the registers that configuring once with the second
    request leaves, and the second call performs the same accesses. *)
Theorem config_overrides_previous_config dm s d1 p1 d2 p2 :
  regs (exec (xlnx_pwm_config dm d2 p2) (exec (xlnx_pwm_config dm d1 p1) s))
  = regs (exec (xlnx_pwm_config dm d2 p2) s) /\
  events_of (xlnx_pwm_config dm d2 p2) (exec (xlnx_pwm_config dm d1 p1) s)
  = events_of (xlnx_pwm_config dm d2 p2) s.
Proof.
  unfold exec. split.
  - apply map_eq. intros i.
    rewrite (config_state dm d2 p2 (snd (xlnx_pwm_config dm d1 p1 s))).
    rewrite (config_state dm d2 p2 s).
    rewrite !apply_regs_lookup, planned_after_config.
    repeat case_decide; try reflexivity.
    rewrite config_state, apply_regs_lookup.
    repeat case_decide; first [contradiction | reflexivity].
  - rewrite !config_events, planned_after_config, config_clk_result.
    reflexivity.
Qed.

(** [xlnx_pwm_enable] reads each load register and writes the value back:
    the load registers hold afterwards what they held before. *)
Theorem enable_keeps_load_registers dm s v0 v1 :
  regs s !! TLR0 = Some v0 -> regs s !! TLR1 = Some v1 ->
  0 <= v0 < 2 ^ 32 -> 0 <= v1 < 2 ^ 32 ->
  regs (exec (xlnx_pwm_enable dm) s) !! TLR0 = Some v0 /\
  regs (exec (xlnx_pwm_enable dm) s) !! TLR1 = Some v1.
Proof.
  intros E0 E1 B0 B1. unfold exec. rewrite enable_regs, E0, E1.
  cbn [default]. unfold u32. rewrite !to_unsigned_small by assumption.
  split.
  - rewrite !lookup_insert_ne by offsets_differ. apply lookup_insert_eq.
  - rewrite !lookup_insert_ne by offsets_differ. apply lookup_insert_eq.
Qed.

Lemma enable_keeps_load_registers_witness :
  (regs dev_loaded !! TLR0 = Some 2000000 /\
   regs dev_loaded !! TLR1 = Some 500000 /\
   0 <= 2000000 < 2 ^ 32 /\ 0 <= 500000 < 2 ^ 32) /\
  (regs (exec (xlnx_pwm_enable ILP32) dev_loaded) !! TLR0 = Some 2000000 /\
   regs (exec (xlnx_pwm_enable ILP32) dev_loaded) !! TLR1 = Some 500000).
Proof.
  split.
  - vm_compute. repeat split; intros; discriminate.
  - apply (enable_keeps_load_registers ILP32 dev_loaded 2000000 500000);
      vm_compute; repeat split; intros; discriminate.
Defined.

(** The life cycle configure, disable, enable resumes with the configured
    counts: after the three calls the load registers still hold the period
    and duty counts the configuration wrote. *)
Theorem config_disable_enable_keeps_loads dm s duty_ns period_ns :
  regs (exec (xlnx_pwm_enable dm)
          (exec (xlnx_pwm_disable dm)
             (exec (xlnx_pwm_config dm duty_ns period_ns) s))) !! TLR0
  = Some (u32 (period_cycles (planned dm s duty_ns period_ns))) /\
  regs (exec (xlnx_pwm_enable dm)
          (exec (xlnx_pwm_disable dm)
             (exec (xlnx_pwm_config dm duty_ns period_ns) s))) !! TLR1
  = Some (u32 (duty_cycles (planned dm s duty_ns period_ns))).
Proof.
  unfold exec. rewrite enable_regs.
  destruct (apply_regs_at dm (planned dm s duty_ns period_ns) s)
    as (_ & _ & E0 & E1).
  split.
  - rewrite !lookup_insert_ne by offsets_differ. rewrite lookup_insert_eq.
    rewrite disable_regs, !lookup_insert_ne by offsets_differ.
    rewrite config_state, E0. cbn [default id]. rewrite u32_idem. reflexivity.
  - rewrite !lookup_insert_ne by offsets_differ. rewrite lookup_insert_eq.
    rewrite disable_regs, !lookup_insert_ne by offsets_differ.
    rewrite config_state, E1. cbn [default id]. rewrite u32_idem. reflexivity.
Qed.

(** When [xlnx_pwm_config] returns, TCSR0 holds the control word of
    counter A and TCSR1 that of counter B with enable-all added; the load
    bit pulsed in between is not left set in either. *)
Theorem config_final_control_registers dm s duty_ns period_ns :
  regs (exec (xlnx_pwm_config dm duty_ns period_ns) s) !! TCSR0
  = Some (tcsr0 (planned dm s duty_ns period_ns)) /\
  regs (exec (xlnx_pwm_config dm duty_ns period_ns) s) !! TCSR1
  = Some (tcsr1 (planned dm s duty_ns period_ns) |' TCSR_ENALL) /\
  Z.testbit (tcsr0 (planned dm s duty_ns period_ns)) LOAD_BIT = false /\
  Z.testbit (tcsr1 (planned dm s duty_ns period_ns) |' TCSR_ENALL) LOAD_BIT = false /\
  Z.testbit (tcsr1 (planned dm s duty_ns period_ns) |' TCSR_ENALL) ENALL_BIT = true.
Proof.
  unfold exec. rewrite config_state.
  destruct (apply_regs_at dm (planned dm s duty_ns period_ns) s)
    as (-> & -> & _ & _).
  destruct (planned_words_u32 dm s duty_ns period_ns) as (-> & _ & ->).
  unfold planned.
  destruct (plan_words dm (ulong dm (clk_rate s)) duty_ns period_ns)
    as [[-> ->] | [[-> ->] | [-> ->]]]; repeat split; reflexivity.
Qed.

(** [xlnx_pwm_enable] always writes the baseline control words, with both
    generate bits set.  After an always-OFF configuration (duty 0), whose
    control word for counter A has the generate bit cleared, enabling sets
    that bit again. *)
Theorem enable_restores_generate_bits dm s period_ns :
  regs (exec (xlnx_pwm_enable dm) s) !! TCSR0 = Some TCSR_BASELINE /\
  regs (exec (xlnx_pwm_enable dm) s) !! TCSR1
  = Some (TCSR_BASELINE |' TCSR_ENALL) /\
  Z.testbit TCSR_BASELINE GENT_BIT = true /\
  regs (exec (xlnx_pwm_config dm 0 period_ns) s) !! TCSR0 = Some 0x212 /\
  Z.testbit 0x212 GENT_BIT = false /\
  regs (exec (xlnx_pwm_enable dm) (exec (xlnx_pwm_config dm 0 period_ns) s))
    !! TCSR0 = Some TCSR_BASELINE.
Proof.
  assert (forall s', regs (exec (xlnx_pwm_enable dm) s') !! TCSR0
                     = Some TCSR_BASELINE) as Hen.
  { intros s'. unfold exec. rewrite enable_regs.
    rewrite !lookup_insert_ne by offsets_differ. apply lookup_insert_eq. }
  split; [apply Hen |]. split.
  { unfold exec. rewrite enable_regs. apply lookup_insert_eq. }
  split; [reflexivity |]. split.
  { unfold exec. rewrite config_state.
    destruct (apply_regs_at dm (planned dm s 0 period_ns) s) as (-> & _).
    unfold planned. rewrite plan_unfold. cbv zeta. rewrite cycles_zero_ns.
    reflexivity. }
  split; [reflexivity | apply Hen].
Qed.

(** When the clock request succeeds, [xlnx_pwm_enable] takes one clock
    reference and [xlnx_pwm_disable] after it gives it back: the count is
    what it was, and both control registers hold zero. *)
Theorem enable_then_disable_clock_balance dm s :
  clk_enable_result s = 0 ->
  clk_enable_count (exec (xlnx_pwm_enable dm) s) = clk_enable_count s + 1 /\
  clk_enable_count (exec (xlnx_pwm_disable dm) (exec (xlnx_pwm_enable dm) s))
  = clk_enable_count s /\
  regs (exec (xlnx_pwm_disable dm) (exec (xlnx_pwm_enable dm) s)) !! TCSR0
  = Some 0 /\
  regs (exec (xlnx_pwm_disable dm) (exec (xlnx_pwm_enable dm) s)) !! TCSR1
  = Some 0.
Proof.
  intros Hok. unfold exec.
  rewrite disable_clk_count, disable_regs, enable_clk_count, Hok, Z.eqb_refl.
  split; [reflexivity |]. split; [lia |]. split.
  - rewrite lookup_insert_ne by offsets_differ. apply lookup_insert_eq.
  - apply lookup_insert_eq.
Qed.

Lemma enable_then_disable_clock_balance_witness :
  clk_enable_result dev_100MHz = 0 /\
  clk_enable_count
    (exec (xlnx_pwm_disable ILP32) (exec (xlnx_pwm_enable ILP32) dev_100MHz))
  = clk_enable_count dev_100MHz.
Proof.
  split.
  - reflexivity.
  - apply (enable_then_disable_clock_balance ILP32 dev_100MHz). reflexivity.
Defined.

(** [xlnx_pwm_config] does not look at the result of its clock request:
    when the request fails it still performs its nine writes and returns 0,
    and its release then takes the count one below where it was. *)
Theorem config_ignores_clock_failure dm s duty_ns period_ns :
  clk_enable_result s <> 0 ->
  fst (xlnx_pwm_config dm duty_ns period_ns s) = 0 /\
  count_writes (events_of (xlnx_pwm_config dm duty_ns period_ns) s) = 9%nat /\
  clk_enable_count (exec (xlnx_pwm_config dm duty_ns period_ns) s)
  = clk_enable_count s - 1.
Proof.
  intros Hfail. unfold exec.
  rewrite config_events, config_state, apply_clk_count.
  destruct (Z.eqb_spec (clk_enable_result s) 0) as [E | _]; [contradiction |].
  split; [apply config_result |].
  split; [apply apply_events_count_writes | reflexivity].
Qed.

Lemma config_ignores_clock_failure_witness :
  clk_enable_result dev_clk_fault <> 0 /\
  clk_enable_count (exec (xlnx_pwm_config ILP32 5000000 20000000) dev_clk_fault)
  = clk_enable_count dev_clk_fault - 1.
Proof.
  split.
  - vm_compute. intros; discriminate.
  - apply (config_ignores_clock_failure ILP32 dev_clk_fault 5000000 20000000).
    vm_compute. intros; discriminate.
Defined.

(** [xlnx_pwm_enable] asks for the clock last: when the request fails the
    error is returned and no reference is taken, but the counters have
    already been started with enable-all. *)
Theorem enable_clock_failure_after_start dm s :
  clk_enable_result s <> 0 ->
  fst (xlnx_pwm_enable dm s) = clk_enable_result s /\
  clk_enable_count (exec (xlnx_pwm_enable dm) s) = clk_enable_count s /\
  regs (exec (xlnx_pwm_enable dm) s) !! TCSR1
  = Some (TCSR_BASELINE |' TCSR_ENALL) /\
  Z.testbit (TCSR_BASELINE |' TCSR_ENALL) ENALL_BIT = true.
Proof.
  intros Hfail. unfold exec. rewrite enable_clk_count, enable_regs.
  destruct (Z.eqb_spec (clk_enable_result s) 0) as [E | _]; [contradiction |].
  split; [apply enable_result |]. split; [reflexivity |].
  split; [apply lookup_insert_eq | reflexivity].
Qed.

Lemma enable_clock_failure_after_start_witness :
  clk_enable_result dev_clk_fault <> 0 /\
  fst (xlnx_pwm_enable ILP32 dev_clk_fault) = clk_enable_result dev_clk_fault.
Proof.
  split.
  - vm_compute. intros; discriminate.
  - apply (enable_clock_failure_after_start ILP32 dev_clk_fault).
    vm_compute. intros; discriminate.
Defined.

End DeviceFacts.

(** ** The frame-buffer palette and blanking *)

Section FramebufferFacts.

Lemma lor_above hi lo k :
  0 <= k -> 0 <= lo < 2 ^ k -> Z.lor (hi * 2 ^ k) lo = hi * 2 ^ k + lo.
Proof.
  intros Hk Hlo.
  assert (Z.land (hi * 2 ^ k) lo = 0) as Hdisj.
  { apply Z.bits_inj'. intros n Hn.
    rewrite Z.land_spec, Z.bits_0.
    destruct (Z.lt_ge_cases n k) as [Hlt | Hge].
    - rewrite Z.mul_pow2_bits_low by assumption. reflexivity.
    - destruct (Z.eq_dec lo 0) as [-> | Hnz].
      + rewrite Z.bits_0. apply andb_false_r.
      + rewrite (Z.bits_above_log2 lo n); [apply andb_false_r | lia |].
        assert (Z.log2 lo < k) by (apply Z.log2_lt_pow2; lia). lia. }
  rewrite Z.add_nocarry_lxor by assumption.
  symmetry. apply Z.lxor_lor. assumption.
Qed.

(** The word the driver builds from three 8-bit levels. *)
Lemma pack_levels R G B :
  0 <= R < 256 -> 0 <= G < 256 -> 0 <= B < 256 ->
  u32 (Z.shiftl R RED_SHIFT) |' u32 (Z.shiftl G GREEN_SHIFT)
    |' u32 (Z.shiftl B BLUE_SHIFT)
  = R * 65536 + G * 256 + B.
Proof.
  intros HR HG HB. unfold RED_SHIFT, GREEN_SHIFT, BLUE_SHIFT.
  rewrite !Z.shiftl_mul_pow2 by lia.
  unfold u32. rewrite !to_unsigned_small by lia.
  change (2 ^ 0) with 1. rewrite Z.mul_1_r.
  rewrite (lor_above R (G * 2 ^ 8) 16) by lia.
  replace (R * 2 ^ 16 + G * 2 ^ 8) with ((R * 2 ^ 8 + G) * 2 ^ 8) by lia.
  rewrite (lor_above (R * 2 ^ 8 + G) B 8) by lia.
  lia.
Qed.

Lemma level_range c : 0 <= c < 2 ^ 16 -> 0 <= Z.shiftr c 8 < 256.
Proof.
  intros Hc. rewrite Z.shiftr_div_pow2 by lia. change (2 ^ 8) with 256.
  split; [apply Z.div_pos; lia | apply Z.div_lt_upper_bound; lia].
Qed.

Lemma fields_of_word R G B :
  0 <= R < 256 -> 0 <= G < 256 -> 0 <= B < 256 ->
  red_field (R * 65536 + G * 256 + B) = R /\
  green_field (R * 65536 + G * 256 + B) = G /\
  blue_field (R * 65536 + G * 256 + B) = B.
Proof.
  intros HR HG HB.
  unfold red_field, green_field, blue_field, RED_SHIFT, GREEN_SHIFT, BLUE_SHIFT.
  change 0xFF with (Z.ones 8).
  rewrite !Z.land_ones, !Z.shiftr_div_pow2 by lia.
  change (2 ^ 16) with 65536. change (2 ^ 8) with 256. change (2 ^ 0) with 1.
  repeat split; Z.to_euclidean_division_equations; lia.
Qed.

Lemma gray_value r g b :
  0 <= r < 2 ^ 16 -> 0 <= g < 2 ^ 16 -> 0 <= b < 2 ^ 16 ->
  Z.shiftr (u32 (u32 (u32 (u32 (r * 77) + u32 (g * 151)) + u32 (b * 28)) + 127)) 8
  = luminance r g b.
Proof.
  intros Hr Hg Hb. unfold u32, luminance.
  rewrite (to_unsigned_small 32 (r * 77)) by lia.
  rewrite (to_unsigned_small 32 (g * 151)) by lia.
  rewrite (to_unsigned_small 32 (b * 28)) by lia.
  rewrite (to_unsigned_small 32 (r * 77 + g * 151)) by lia.
  rewrite (to_unsigned_small 32 (r * 77 + g * 151 + b * 28)) by lia.
  rewrite (to_unsigned_small 32 (r * 77 + g * 151 + b * 28 + 127)) by lia.
  rewrite Z.shiftr_div_pow2 by lia. reflexivity.
Qed.

Lemma luminance_between r g b :
  0 <= r -> 0 <= g -> 0 <= b ->
  Z.min r (Z.min g b) <= luminance r g b <= Z.max r (Z.max g b).
Proof.
  intros Hr Hg Hb. unfold luminance.
  split.
  - apply Z.div_le_lower_bound; lia.
  - apply Z.lt_succ_r. apply Z.div_lt_upper_bound; lia.
Qed.

(** A register number of 16 or more is refused with -EINVAL and the
    palette is left as it was. *)
Theorem setcolreg_out_of_range regno red green blue transp fbi :
  PALETTE_ENTRIES_NO <= regno ->
  xilinx_fb_setcolreg regno red green blue transp fbi = (- EINVAL, fbi).
Proof.
  intros Hbig. unfold xilinx_fb_setcolreg.
  destruct (Z.leb_spec PALETTE_ENTRIES_NO regno) as [_ | Hlt]; [reflexivity | lia].
Qed.

Lemma setcolreg_out_of_range_witness :
  PALETTE_ENTRIES_NO <= 16 /\
  xilinx_fb_setcolreg 16 0xFFFF 0x8000 0x1234 0 fb_colour = (- EINVAL, fb_colour).
Proof.
  split.
  - vm_compute. intros; discriminate.
  - apply (setcolreg_out_of_range 16 0xFFFF 0x8000 0x1234 0 fb_colour).
    vm_compute. intros; discriminate.
Defined.

(** Whatever its arguments, [xilinx_fb_setcolreg] returns 0 or -EINVAL,
    keeps the grayscale flag and the size of the palette, and changes no
    palette entry other than the one numbered [regno]. *)
Theorem setcolreg_touches_one_entry regno red green blue transp fbi :
  (fst (xilinx_fb_setcolreg regno red green blue transp fbi) = 0 \/
   fst (xilinx_fb_setcolreg regno red green blue transp fbi) = - EINVAL) /\
  var_grayscale (snd (xilinx_fb_setcolreg regno red green blue transp fbi))
  = var_grayscale fbi /\
  length (pseudo_palette (snd (xilinx_fb_setcolreg regno red green blue transp fbi)))
  = length (pseudo_palette fbi) /\
  forall i : nat, i <> Z.to_nat regno ->
    pseudo_palette (snd (xilinx_fb_setcolreg regno red green blue transp fbi)) !! i
    = pseudo_palette fbi !! i.
Proof.
  unfold xilinx_fb_setcolreg.
  destruct (PALETTE_ENTRIES_NO <=? regno).
  - cbn [fst snd]. repeat split; auto.
  - destruct (var_grayscale fbi =? 0); cbn [fst snd var_grayscale pseudo_palette].
    + repeat split; auto using length_insert.
      intros i Hi. apply list_lookup_insert_ne. congruence.
    + repeat split; auto using length_insert.
      intros i Hi. apply list_lookup_insert_ne. congruence.
Qed.

(** In colour mode, with 16-bit colour levels, the palette entry packs the
    top eight bits of each level: red in bits 16-23, green in bits 8-15,
    blue in bits 0-7, and each field reads back as that level. *)
Theorem setcolreg_truecolor_word regno red green blue transp fbi :
  0 <= regno < PALETTE_ENTRIES_NO ->
  length (pseudo_palette fbi) = 16%nat ->
  var_grayscale fbi = 0 ->
  0 <= red < 2 ^ 16 -> 0 <= green < 2 ^ 16 -> 0 <= blue < 2 ^ 16 ->
  fst (xilinx_fb_setcolreg regno red green blue transp fbi) = 0 /\
  pseudo_palette (snd (xilinx_fb_setcolreg regno red green blue transp fbi))
    !! Z.to_nat regno
  = Some (Z.shiftr red 8 * 65536 + Z.shiftr green 8 * 256 + Z.shiftr blue 8) /\
  red_field (Z.shiftr red 8 * 65536 + Z.shiftr green 8 * 256 + Z.shiftr blue 8)
  = Z.shiftr red 8 /\
  green_field (Z.shiftr red 8 * 65536 + Z.shiftr green 8 * 256 + Z.shiftr blue 8)
  = Z.shiftr green 8 /\
  blue_field (Z.shiftr red 8 * 65536 + Z.shiftr green 8 * 256 + Z.shiftr blue 8)
  = Z.shiftr blue 8.
Proof.
  unfold PALETTE_ENTRIES_NO. intros Hno Hlen Hcol Hr Hg Hb.
  pose proof (level_range red Hr) as HR.
  pose proof (level_range green Hg) as HG.
  pose proof (level_range blue Hb) as HB.
  unfold xilinx_fb_setcolreg, PALETTE_ENTRIES_NO.
  destruct (Z.leb_spec 16 regno) as [Hbig | _]; [lia |].
  rewrite Hcol. change (0 =? 0) with true. cbv iota beta.
  cbn [fst snd pseudo_palette].
  rewrite pack_levels by assumption.
  split; [reflexivity |]. split.
  - apply list_lookup_insert_eq. lia.
  - apply fields_of_word; assumption.
Qed.

Lemma setcolreg_truecolor_word_witness :
  (0 <= 3 < PALETTE_ENTRIES_NO /\
   length (pseudo_palette fb_colour) = 16%nat /\
   var_grayscale fb_colour = 0 /\
   0 <= 0xFFFF < 2 ^ 16 /\ 0 <= 0x8000 < 2 ^ 16 /\ 0 <= 0x1234 < 2 ^ 16) /\
  pseudo_palette (snd (xilinx_fb_setcolreg 3 0xFFFF 0x8000 0x1234 0 fb_colour))
    !! Z.to_nat 3
  = Some (Z.shiftr 0xFFFF 8 * 65536 + Z.shiftr 0x8000 8 * 256 + Z.shiftr 0x1234 8).
Proof.
  split.
  - vm_compute. repeat split; intros; discriminate.
  - apply (setcolreg_truecolor_word 3 0xFFFF 0x8000 0x1234 0 fb_colour);
      vm_compute; repeat split; intros; discriminate.
Defined.

(** In grayscale mode, with 16-bit colour levels, the three fields of the
    palette entry all hold the top eight bits of the luminance
    (77 R + 151 G + 28 B + 127) / 256, which lies between the smallest and
    the largest of the three levels. *)
Theorem setcolreg_grayscale_word regno red green blue transp fbi :
  0 <= regno < PALETTE_ENTRIES_NO ->
  length (pseudo_palette fbi) = 16%nat ->
  var_grayscale fbi <> 0 ->
  0 <= red < 2 ^ 16 -> 0 <= green < 2 ^ 16 -> 0 <= blue < 2 ^ 16 ->
  pseudo_palette (snd (xilinx_fb_setcolreg regno red green blue transp fbi))
    !! Z.to_nat regno
  = Some (Z.shiftr (luminance red green blue) 8 * 65536
          + Z.shiftr (luminance red green blue) 8 * 256
          + Z.shiftr (luminance red green blue) 8) /\
  Z.min red (Z.min green blue) <= luminance red green blue
    <= Z.max red (Z.max green blue).
Proof.
  unfold PALETTE_ENTRIES_NO. intros Hno Hlen Hgray Hr Hg Hb.
  pose proof (luminance_between red green blue
                ltac:(lia) ltac:(lia) ltac:(lia)) as Hlum.
  assert (0 <= luminance red green blue < 2 ^ 16) as Hy by lia.
  pose proof (level_range _ Hy) as HY.
  split; [| exact Hlum].
  unfold xilinx_fb_setcolreg, PALETTE_ENTRIES_NO.
  destruct (Z.leb_spec 16 regno) as [Hbig | _]; [lia |].
  destruct (Z.eqb_spec (var_grayscale fbi) 0) as [E | _]; [contradiction |].
  cbv iota beta zeta. cbn [fst snd pseudo_palette].
  rewrite gray_value by assumption.
  rewrite pack_levels by assumption.
  apply list_lookup_insert_eq. lia.
Qed.

Lemma setcolreg_grayscale_word_witness :
  (0 <= 3 < PALETTE_ENTRIES_NO /\
   length (pseudo_palette fb_gray) = 16%nat /\
   var_grayscale fb_gray <> 0 /\
   0 <= 0xFFFF < 2 ^ 16 /\ 0 <= 0x8000 < 2 ^ 16 /\ 0 <= 0x1234 < 2 ^ 16) /\
  Z.min 0xFFFF (Z.min 0x8000 0x1234) <= luminance 0xFFFF 0x8000 0x1234
    <= Z.max 0xFFFF (Z.max 0x8000 0x1234).
Proof.
  split.
  - vm_compute. repeat split; intros; discriminate.
  - apply (setcolreg_grayscale_word 3 0xFFFF 0x8000 0x1234 0 fb_gray);
      vm_compute; repeat split; intros; discriminate.
Defined.

(** A gray input is a fixed point of the grayscale conversion: with equal
    16-bit levels the palette is the same in grayscale mode as in colour
    mode. *)
Theorem setcolreg_gray_input_same_in_both_modes regno v transp flag palette :
  0 <= v < 2 ^ 16 ->
  pseudo_palette (snd (xilinx_fb_setcolreg regno v v v transp (FbInfo flag palette)))
  = pseudo_palette (snd (xilinx_fb_setcolreg regno v v v transp (FbInfo 0 palette))).
Proof.
  intros Hv. unfold xilinx_fb_setcolreg.
  destruct (PALETTE_ENTRIES_NO <=? regno); [reflexivity |].
  cbn [var_grayscale]. change (0 =? 0) with true.
  destruct (flag =? 0); [reflexivity |].
  cbv iota beta zeta. cbn [snd pseudo_palette].
  rewrite gray_value by assumption.
  assert (luminance v v v = v) as ->.
  { unfold luminance. symmetry. apply Z.div_unique with (r := 127); lia. }
  reflexivity.
Qed.

Lemma setcolreg_gray_input_same_in_both_modes_witness :
  0 <= 0x8000 < 2 ^ 16 /\
  pseudo_palette (snd (xilinx_fb_setcolreg 3 0x8000 0x8000 0x8000 0
                         (FbInfo 1 (replicate 16 0))))
  = pseudo_palette (snd (xilinx_fb_setcolreg 3 0x8000 0x8000 0x8000 0
                           (FbInfo 0 (replicate 16 0)))).
Proof.
  split.
  - vm_compute. repeat split; intros; discriminate.
  - apply (setcolreg_gray_input_same_in_both_modes 3 0x8000 0 1 (replicate 16 0)).
    vm_compute. repeat split; intros; discriminate.
Defined.

Lemma out32_ctrl_run val s :
  xilinx_fb_out32 REG_CTRL val s =
    (tt, Device (<[0 := u32 val]> (regs s)) (clk_rate s) (clk_enable_count s)
                (clk_enable_result s) (trace s ++ [EvWrite (u32 val) 0])).
Proof. reflexivity. Qed.

Lemma blank_run blank_mode reg_ctrl_default s :
  xilinx_fb_blank blank_mode reg_ctrl_default s =
    if blank_mode =? FB_BLANK_UNBLANK
    then (0, snd (xilinx_fb_out32 REG_CTRL reg_ctrl_default s))
    else if (blank_mode =? FB_BLANK_NORMAL)
            || (blank_mode =? FB_BLANK_VSYNC_SUSPEND)
            || (blank_mode =? FB_BLANK_HSYNC_SUSPEND)
            || (blank_mode =? FB_BLANK_POWERDOWN)
         then (0, snd (xilinx_fb_out32 REG_CTRL 0 s))
         else (0, s).
Proof.
  unfold xilinx_fb_blank, mbind, mret, io_bind, io_ret.
  destruct (blank_mode =? FB_BLANK_UNBLANK).
  - rewrite out32_ctrl_run. reflexivity.
  - destruct ((blank_mode =? FB_BLANK_NORMAL)
              || (blank_mode =? FB_BLANK_VSYNC_SUSPEND)
              || (blank_mode =? FB_BLANK_HSYNC_SUSPEND)
              || (blank_mode =? FB_BLANK_POWERDOWN)).
    + rewrite out32_ctrl_run. reflexivity.
    + reflexivity.
Qed.

(** Each of the four blanking levels turns the panel off by writing zero
    to the control register (byte offset 0 of the window); unblanking
    afterwards writes the default control value back.  Both calls return
    0. *)
Theorem blank_then_unblank blank_mode reg_ctrl_default s :
  blank_mode = FB_BLANK_NORMAL \/ blank_mode = FB_BLANK_VSYNC_SUSPEND \/
  blank_mode = FB_BLANK_HSYNC_SUSPEND \/ blank_mode = FB_BLANK_POWERDOWN ->
  fst (xilinx_fb_blank blank_mode reg_ctrl_default s) = 0 /\
  events_of (xilinx_fb_blank blank_mode reg_ctrl_default) s = [EvWrite 0 0] /\
  regs (exec (xilinx_fb_blank blank_mode reg_ctrl_default) s) !! 0 = Some 0 /\
  fst (xilinx_fb_blank FB_BLANK_UNBLANK reg_ctrl_default
         (exec (xilinx_fb_blank blank_mode reg_ctrl_default) s)) = 0 /\
  regs (exec (xilinx_fb_blank FB_BLANK_UNBLANK reg_ctrl_default)
          (exec (xilinx_fb_blank blank_mode reg_ctrl_default) s)) !! 0
  = Some (u32 reg_ctrl_default).
Proof.
  intros Hmode. unfold exec, events_of.
  rewrite (blank_run FB_BLANK_UNBLANK). change (FB_BLANK_UNBLANK =? FB_BLANK_UNBLANK) with true.
  cbv iota. rewrite (blank_run blank_mode reg_ctrl_default s).
  assert ((blank_mode =? FB_BLANK_UNBLANK) = false) as ->
    by (destruct Hmode as [-> | [-> | [-> | ->]]]; reflexivity).
  assert ((blank_mode =? FB_BLANK_NORMAL)
          || (blank_mode =? FB_BLANK_VSYNC_SUSPEND)
          || (blank_mode =? FB_BLANK_HSYNC_SUSPEND)
          || (blank_mode =? FB_BLANK_POWERDOWN) = true) as ->
    by (destruct Hmode as [-> | [-> | [-> | ->]]]; reflexivity).
  rewrite !out32_ctrl_run. cbn [fst snd regs trace].
  split; [reflexivity |]. split; [apply drop_own_prefix |].
  split; [apply lookup_insert_eq |]. split; [reflexivity |].
  apply lookup_insert_eq.
Qed.

Lemma blank_then_unblank_witness :
  (FB_BLANK_POWERDOWN = FB_BLANK_NORMAL \/
   FB_BLANK_POWERDOWN = FB_BLANK_VSYNC_SUSPEND \/
   FB_BLANK_POWERDOWN = FB_BLANK_HSYNC_SUSPEND \/
   FB_BLANK_POWERDOWN = FB_BLANK_POWERDOWN) /\
  regs (exec (xilinx_fb_blank FB_BLANK_UNBLANK REG_CTRL_ENABLE)
          (exec (xilinx_fb_blank FB_BLANK_POWERDOWN REG_CTRL_ENABLE) dev_100MHz))
    !! 0
  = Some (u32 REG_CTRL_ENABLE).
Proof.
  split.
  - right. right. right. reflexivity.
  - apply (blank_then_unblank FB_BLANK_POWERDOWN REG_CTRL_ENABLE dev_100MHz).
    right. right. right. reflexivity.
Defined.

(** A blanking level the driver does not know is accepted without any
    effect: the call returns 0 and leaves the device untouched. *)
Theorem blank_unknown_mode_is_ignored blank_mode reg_ctrl_default s :
  blank_mode <> FB_BLANK_UNBLANK -> blank_mode <> FB_BLANK_NORMAL ->
  blank_mode <> FB_BLANK_VSYNC_SUSPEND ->
  blank_mode <> FB_BLANK_HSYNC_SUSPEND ->
  blank_mode <> FB_BLANK_POWERDOWN ->
  xilinx_fb_blank blank_mode reg_ctrl_default s = (0, s).
Proof.
  intros H0 H1 H2 H3 H4. rewrite blank_run.
  apply Z.eqb_neq in H0, H1, H2, H3, H4.
  rewrite H0, H1, H2, H3, H4. reflexivity.
Qed.

Lemma blank_unknown_mode_is_ignored_witness :
  (5 <> FB_BLANK_UNBLANK /\ 5 <> FB_BLANK_NORMAL /\
   5 <> FB_BLANK_VSYNC_SUSPEND /\ 5 <> FB_BLANK_HSYNC_SUSPEND /\
   5 <> FB_BLANK_POWERDOWN) /\
  xilinx_fb_blank 5 REG_CTRL_ENABLE dev_100MHz = (0, dev_100MHz).
Proof.
  split.
  - vm_compute. repeat split; intros; discriminate.
  - apply (blank_unknown_mode_is_ignored 5 REG_CTRL_ENABLE dev_100MHz);
      vm_compute; intros; discriminate.
Defined.

End FramebufferFacts.
